(** * The query-intent pipeline of [utils/llm_handler.py]

    A shallow embedding of [LLMHandler]: the intent classifier, the SQL
    sanitizer, the narrative synthesizer, the visualization selector and the
    orchestrator [process_natural_language_query], with the language model
    and the storage layer as external capabilities.

    Python [str] values are modelled by [string] over the ASCII repertoire:
    case mapping and the regex classes [\w] and [\s] are those of Python on
    ASCII characters; a character above 127 is caseless, not a word
    character and not whitespace.  Properties that rest on the case mapping
    or the word class of their input are stated for ASCII input
    ([is_ascii]). *)

From Stdlib Require Import String Ascii List Bool Arith NArith Lia DecimalString.
From Equations Require Import Equations.
Import ListNotations.
Local Open Scope string_scope.

(** ** Python strings *)

Module PyStr.

Definition code (c : ascii) : nat := nat_of_ascii c.

Definition between (lo hi : nat) (c : ascii) : bool :=
  ((lo <=? code c) && (code c <=? hi))%nat.

Definition is_upper (c : ascii) : bool := between 65 90 c.
Definition is_lower (c : ascii) : bool := between 97 122 c.
Definition is_digit (c : ascii) : bool := between 48 57 c.

(** [\w]: letters, digits and the underscore. *)
Definition is_word (c : ascii) : bool :=
  is_digit c || is_upper c || is_lower c || (code c =? 95)%nat.

(** [\s] and the default set of [str.strip]: tab, newline, vertical tab,
    form feed, carriage return, the four separators 28..31, space. *)
Definition is_space (c : ascii) : bool :=
  between 9 13 c || between 28 32 c.

Definition lower_char (c : ascii) : ascii :=
  if is_upper c then ascii_of_nat (code c + 32) else c.

Definition upper_char (c : ascii) : ascii :=
  if is_lower c then ascii_of_nat (code c - 32) else c.

Fixpoint map_chars (f : ascii -> ascii) (s : string) : string :=
  match s with
  | EmptyString => EmptyString
  | String c r => String (f c) (map_chars f r)
  end.

(** [s.lower()] and [s.upper()]. *)
Definition lower : string -> string := map_chars lower_char.
Definition upper : string -> string := map_chars upper_char.

(** [strip_prefix p s] is [Some rest] when [s = p ++ rest]. *)
Fixpoint strip_prefix (p s : string) : option string :=
  match p, s with
  | EmptyString, _ => Some s
  | String a p', String b s' => if Ascii.eqb a b then strip_prefix p' s' else None
  | String _ _, EmptyString => None
  end.

(** [s.startswith(p)]. *)
Definition startswith (s p : string) : bool :=
  match strip_prefix p s with Some _ => true | None => false end.

(** [needle in s]. *)
Fixpoint contains (needle s : string) : bool :=
  startswith s needle ||
  match s with
  | EmptyString => false
  | String _ r => contains needle r
  end.

Fixpoint mem_char (c : ascii) (chars : string) : bool :=
  match chars with
  | EmptyString => false
  | String d r => Ascii.eqb c d || mem_char c r
  end.

Fixpoint lstrip_if (p : ascii -> bool) (s : string) : string :=
  match s with
  | EmptyString => EmptyString
  | String c r => if p c then lstrip_if p r else s
  end.

Fixpoint rstrip_if (p : ascii -> bool) (s : string) : string :=
  match s with
  | EmptyString => EmptyString
  | String c r =>
      match rstrip_if p r with
      | EmptyString => if p c then EmptyString else String c EmptyString
      | r' => String c r'
      end
  end.

(** [s.rstrip(chars)] and [s.strip()]. *)
Definition rstrip_chars (chars s : string) : string :=
  rstrip_if (fun c => mem_char c chars) s.

Definition strip (s : string) : string :=
  rstrip_if is_space (lstrip_if is_space s).

Definition head (s : string) : option ascii :=
  match s with EmptyString => None | String c _ => Some c end.

(** The last character of [s], or [prev] when [s] is empty. *)
Fixpoint last_or (prev : option ascii) (s : string) : option ascii :=
  match s with
  | EmptyString => prev
  | String c r => last_or (Some c) r
  end.

(** [str(n)] for a non-negative integer. *)
Definition str_nat (n : nat) : string :=
  NilEmpty.string_of_uint (Nat.to_uint n).

Definition dquote : string := String "034"%char EmptyString.
Definition nl : string := String "010"%char EmptyString.

Definition join (sep : string) (parts : list string) : string :=
  String.concat sep parts.

End PyStr.
Import PyStr.

(** ** Regular expressions of the handler *)

Module Re.

(** [\b] between two neighbouring positions: exactly one side is a word
    character; the ends of the text count as non-word. *)
Definition word_side (c : option ascii) : bool :=
  match c with Some a => is_word a | None => false end.

Definition boundary (before after : option ascii) : bool :=
  xorb (word_side before) (word_side after).

(** Does [\b alt \b] match at the current position?  [prev] is the
    character before the position, [s] the text from it on. *)
Definition match_alt_here (prev : option ascii) (s alt : string) : bool :=
  boundary prev (head s) &&
  match strip_prefix alt s with
  | Some rest => boundary (last_or prev alt) (head rest)
  | None => false
  end.

Fixpoint search_from (alts : list string) (prev : option ascii) (s : string) : bool :=
  existsb (match_alt_here prev s) alts ||
  match s with
  | EmptyString => false
  | String c r => search_from alts (Some c) r
  end.

(** [re.search(r'\b(a1|...|an)\b', s)] as a truth value. *)
Definition search_words (alts : list string) (s : string) : bool :=
  search_from alts None s.

Lemma strip_prefix_length p : forall s rest,
  strip_prefix p s = Some rest -> String.length s = String.length p + String.length rest.
Proof.
  induction p as [|a p IH]; intros s rest H; simpl in *.
  - now inversion H.
  - destruct s as [|b s]; [discriminate|].
    destruct (Ascii.eqb a b); [|discriminate].
    simpl. now rewrite (IH _ _ H).
Defined.

Lemma lstrip_if_length p s : String.length (lstrip_if p s) <= String.length s.
Proof.
  induction s as [|c r IH]; simpl; [lia|].
  destruct (p c); simpl; lia.
Defined.

Definition fence (tag : string) : string := "```" ++ tag.

(** A value together with the equation that names it. *)
Definition inspect {A : Type} (a : A) : {b : A | a = b} := exist _ a eq_refl.

(** [re.sub(r'```<tag>\s*', '', s)]: leftmost matches, not overlapping,
    each taking the fence, the tag and the whitespace after it. *)
Equations? sub_fence (tag s : string) : string by wf (String.length s) lt :=
  sub_fence tag s with inspect (strip_prefix (fence tag) s) := {
    | exist _ (Some rest) H => sub_fence tag (lstrip_if is_space rest)
    | exist _ None H with s := {
        | EmptyString => EmptyString
        | String c r => String c (sub_fence tag r) } }.
Proof.
  - pose proof (strip_prefix_length (fence tag) s rest H) as E.
    pose proof (lstrip_if_length is_space rest).
    unfold fence in E. simpl in E. lia.
Defined.

Lemma sub_fence_step (tag s : string) :
  sub_fence tag s =
  match strip_prefix (fence tag) s with
  | Some rest => sub_fence tag (lstrip_if is_space rest)
  | None => match s with
            | EmptyString => EmptyString
            | String c r => String c (sub_fence tag r)
            end
  end.
Proof.
  funelim (sub_fence tag s).
  - now rewrite H.
  - reflexivity.
  - now rewrite H.
Qed.

End Re.
Import Re.

(** ** Exceptions, results and the effects of the pipeline *)

(** A raised Python exception: its class and [str(e)].  The collaborators
    may raise any class; the handler only catches [Exception] and reads
    the message, so every class other than [ValueError] is [Exception]. *)
Inductive exn : Type :=
| ValueError (msg : string)
| Exception (msg : string).

Definition str_exn (e : exn) : string :=
  match e with
  | ValueError m => m
  | Exception m => m
  end.

Inductive result (A : Type) : Type :=
| Ok (a : A)
| Raise (e : exn).
Arguments Ok {A} a.
Arguments Raise {A} e.

(** A call to one of the two external capabilities. *)
Inductive event : Type :=
| ModelCall (prompt : string)
| DbCall (sql : string).

Definition trace := list event.

(** A computation that may call the capabilities and may raise: from the
    calls made so far to an outcome and the calls made by the end. *)
Definition M (A : Type) : Type := trace -> result A * trace.

Definition ret {A} (a : A) : M A := fun tr => (Ok a, tr).

Definition raise {A} (e : exn) : M A := fun tr => (Raise e, tr).

Definition bind {A B} (m : M A) (k : A -> M B) : M B :=
  fun tr =>
    match m tr with
    | (Ok a, tr') => k a tr'
    | (Raise e, tr') => (Raise e, tr')
    end.

(** [try: m  except Exception as e: h e]. *)
Definition try_except {A} (m : M A) (h : exn -> M A) : M A :=
  fun tr =>
    match m tr with
    | (Ok a, tr') => (Ok a, tr')
    | (Raise e, tr') => h e tr'
    end.

Definition lift {A} (r : result A) : M A := fun tr => (r, tr).

Declare Scope py_scope.
Notation "x <- m ;; k" := (bind m (fun x => k))
  (at level 61, m at next level, right associativity) : py_scope.
Local Open Scope py_scope.

Definition model_calls (tr : trace) : list string :=
  flat_map (fun ev => match ev with ModelCall p => [p] | DbCall _ => [] end) tr.

Definition db_calls (tr : trace) : list string :=
  flat_map (fun ev => match ev with DbCall q => [q] | ModelCall _ => [] end) tr.

(** ** Tabular data *)

Inductive dtype : Type :=
| int64
| float64
| object
| other_number (name : string)
| other_dtype (name : string).

Definition dtype_name (d : dtype) : string :=
  match d with
  | int64 => "int64"
  | float64 => "float64"
  | object => "object"
  | other_number n => n
  | other_dtype n => n
  end.

(** [select_dtypes(include=['number'])]. *)
Definition is_number (d : dtype) : bool :=
  match d with
  | int64 | float64 | other_number _ => true
  | object | other_dtype _ => false
  end.

Definition is_object (d : dtype) : bool :=
  match d with object => true | _ => false end.

(** [dtype in ['int64', 'float64']]. *)
Definition is_int64_or_float64 (d : dtype) : bool :=
  match d with int64 | float64 => true | _ => false end.

Section Frames.

(** Cell values are opaque to the handler: only pandas looks at them. *)
Variable cell : Type.

Record DataFrame : Type := {
  columns : list (string * dtype);
  rows : list (list cell)
}.

(** [len(df)]. *)
Definition len (df : DataFrame) : nat := length (rows df).

(** [df.head(n)]. *)
Definition df_head (n : nat) (df : DataFrame) : DataFrame :=
  {| columns := columns df; rows := firstn n (rows df) |}.

(** [df.iloc[i, j]]. *)
Definition iloc (df : DataFrame) (i j : nat) : option cell :=
  match nth_error (rows df) i with
  | Some row => nth_error row j
  | None => None
  end.

(** The values of the [j]-th column, top to bottom. *)
Definition series (df : DataFrame) (j : nat) : list cell :=
  flat_map (fun row => match nth_error row j with Some v => [v] | None => [] end)
           (rows df).

(** The columns with their positions. *)
Definition indexed_columns (df : DataFrame) : list (nat * (string * dtype)) :=
  combine (seq 0 (length (columns df))) (columns df).

(** One entry of [processed_data]. *)
Record Dataset : Type := {
  table : string;
  dataframe : DataFrame
}.

(** The dictionary returned by the pipeline. *)
Record Response : Type := {
  response : string;
  data : option DataFrame;
  type : string;
  sql_query : option string;
  suggest_visualization : bool
}.

(** What the handler asks of pandas on a column or a frame; the
    statistics are floating-point and stay on pandas' side. *)
Record Pandas : Type := {
  isnull_sum : list cell -> nat;
  nunique : list cell -> nat;
  dropna_unique : list cell -> list cell;
  repr_list : list cell -> string;
  str_cell : cell -> string;
  mean_2f : list cell -> string;
  median_2f : list cell -> string;
  value_counts_index : list cell -> list cell;
  to_string : DataFrame -> string
}.

End Frames.

Arguments columns {cell} d.
Arguments rows {cell} d.
Arguments len {cell} df.
Arguments df_head {cell} n df.
Arguments iloc {cell} df i j.
Arguments series {cell} df j.
Arguments indexed_columns {cell} df.
Arguments table {cell} d.
Arguments dataframe {cell} d.
Arguments response {cell} r.
Arguments data {cell} r.
Arguments type {cell} r.
Arguments sql_query {cell} r.
Arguments suggest_visualization {cell} r.
Arguments isnull_sum {cell} p.
Arguments nunique {cell} p.
Arguments dropna_unique {cell} p.
Arguments repr_list {cell} p.
Arguments str_cell {cell} p.
Arguments mean_2f {cell} p.
Arguments median_2f {cell} p.
Arguments value_counts_index {cell} p.
Arguments to_string {cell} p.

(** ** The handler *)

Section LLMHandler.

Variable cell : Type.

(** The pandas operations the handler relies on. *)
Variable pd : Pandas cell.

(** [self.model.generate_content(prompt).text]: the text, or the
    exception raised, given the calls made before. *)
Variable model : trace -> string -> result string.

(** The literal that follows the three backquotes in the pattern of the
    first substitution of [clean_sql_query]; the source line is cut after
    the backquotes, the second substitution is the same pattern with no
    literal. *)
Variable fence_tag : string.

Definition generate_content (prompt : string) : M string :=
  fun tr => (model tr prompt, (tr ++ [ModelCall prompt])%list).

(** [load_query_patterns]: the items of the dictionary in insertion
    order; each pattern [\b(a1|...|an)\b] is given by its alternatives. *)
Definition load_query_patterns : list (string * list string) :=
  [ ("count", ["how many"; "count"; "number of"; "total"]);
    ("average", ["average"; "mean"; "avg"]);
    ("max", ["maximum"; "max"; "highest"; "largest"]);
    ("min", ["minimum"; "min"; "lowest"; "smallest"]);
    ("sum", ["sum"; "total"; "aggregate"]);
    ("distribution", ["distribution"; "spread"; "range"]);
    ("correlation", ["correlation"; "relationship"; "related"; "associated"]);
    ("filter", ["where"; "filter"; "show me"; "find"]);
    ("group", ["group by"; "grouped"; "category"; "categories"]);
    ("trend", ["trend"; "over time"; "timeline"; "change"]) ].

Definition query_patterns : list (string * list string) := load_query_patterns.

(** The loop of [classify_query] over the items that are left. *)
Fixpoint classify_loop (items : list (string * list string)) (query_lower : string)
  : string :=
  match items with
  | [] => "general"
  | (query_type, pattern) :: rest =>
      if search_words pattern query_lower then query_type
      else classify_loop rest query_lower
  end.

Definition classify_query (query : string) : string :=
  let query_lower := lower query in
  classify_loop query_patterns query_lower.

Definition column_info (df : DataFrame cell) (j : nat) (col : string) (d : dtype)
  : string :=
  let null_count := isnull_sum pd (series df j) in
  let unique_count := nunique pd (series df j) in
  let col_info :=
    "  - " ++ col ++ " (" ++ dtype_name d ++ "): " ++ str_nat unique_count
    ++ " unique values, " ++ str_nat null_count ++ " null values" in
  let col_info :=
    if is_object d && (unique_count <=? 10)%nat
    then col_info ++ ", examples: "
         ++ repr_list pd (firstn 5 (dropna_unique pd (series df j)))
    else col_info in
  col_info ++ nl.

Definition table_info (d : Dataset cell) : string :=
  let df := dataframe d in
  let info :=
    nl ++ "Table: " ++ table d ++ nl
    ++ "Rows: " ++ str_nat (len df) ++ nl
    ++ "Columns: " ++ str_nat (length (columns df)) ++ nl
    ++ "Column Details:" ++ nl in
  fold_left (fun info jc => info ++ column_info df (fst jc) (fst (snd jc)) (snd (snd jc)))
            (indexed_columns df) info.

Definition build_data_context (processed_data : list (Dataset cell)) : string :=
  join (nl ++ nl) (map table_info processed_data).

Definition dangerous_keywords : list string :=
  ["DROP"; "DELETE"; "UPDATE"; "INSERT"; "CREATE"; "ALTER"].

(** The loop of [clean_sql_query]: the first keyword that raises. *)
Fixpoint first_dangerous (keywords : list string) (query_upper : string)
  : option string :=
  match keywords with
  | [] => None
  | keyword :: rest =>
      if contains keyword query_upper && negb (startswith query_upper "SELECT")
      then Some keyword
      else first_dangerous rest query_upper
  end.

(** The text after the two substitutions and the two strips. *)
Definition strip_artifacts (query : string) : string :=
  let query := sub_fence fence_tag query in
  let query := sub_fence "" query in
  strip (rstrip_chars ";" query).

Definition clean_sql_query (query : string) : result string :=
  let query := strip_artifacts query in
  let query_upper := upper query in
  match first_dangerous dangerous_keywords query_upper with
  | Some keyword => Raise (ValueError ("Dangerous SQL operation detected: " ++ keyword))
  | None => Ok query
  end.

Definition sql_prompt (query data_context query_type : string) : string :=
  nl ++ "You are an expert SQL query generator for health data analysis. " ++ nl
  ++ nl
  ++ "Data Context:" ++ nl
  ++ data_context ++ nl
  ++ nl
  ++ "User Query: " ++ dquote ++ query ++ dquote ++ nl
  ++ "Query Type: " ++ query_type ++ nl
  ++ nl
  ++ "Generate a single, syntactically correct SQLite query that answers the user's question." ++ nl
  ++ nl
  ++ "Rules:" ++ nl
  ++ "1. Return ONLY the SQL query, no explanations or formatting" ++ nl
  ++ "2. Use proper SQLite syntax" ++ nl
  ++ "3. Handle potential NULL values appropriately" ++ nl
  ++ "4. For aggregations, use appropriate GROUP BY clauses" ++ nl
  ++ "5. Use LIMIT for large result sets when appropriate" ++ nl
  ++ "6. Table names are exact as shown in the context" ++ nl
  ++ nl
  ++ "SQL Query:" ++ nl.

Definition generate_sql_query (query data_context query_type : string) : M string :=
  let prompt := sql_prompt query data_context query_type in
  try_except
    (text <- generate_content prompt ;;
     let sql_query := strip text in
     sql_query <- lift (clean_sql_query sql_query) ;;
     ret sql_query)
    (fun e => raise (Exception ("Failed to generate SQL query: " ++ str_exn e))).

Definition numeric_summary (df : DataFrame cell) (jc : nat * (string * dtype)) : string :=
  fst (snd jc) ++ ": mean=" ++ mean_2f pd (series df (fst jc))
  ++ ", median=" ++ median_2f pd (series df (fst jc)).

Definition categorical_summary (df : DataFrame cell) (jc : nat * (string * dtype))
  : string :=
  let value_counts := value_counts_index pd (series df (fst jc)) in
  let top_value :=
    match value_counts with
    | v :: _ => str_cell pd v
    | [] => "N/A"
    end in
  fst (snd jc) ++ ": most common = " ++ top_value.

(** The digest of a result as pandas computes it for a frame whose column
    names are distinct; on a frame with a repeated column name [df[col]] is
    a frame, the digest raises, and the orchestrator takes the error
    fallback. *)
Definition get_result_summary (df : DataFrame cell) : string :=
  let numeric_cols :=
    filter (fun jc => is_number (snd (snd jc))) (indexed_columns df) in
  let categorical_cols :=
    filter (fun jc => is_object (snd (snd jc))) (indexed_columns df) in
  let summary_parts :=
    (map (numeric_summary df) (firstn 3 numeric_cols)
     ++ map (categorical_summary df) (firstn 2 categorical_cols))%list in
  join "; " summary_parts.

Definition get_simple_summary (df : DataFrame cell) : string :=
  if (len df =? 1)%nat && (length (columns df) =? 1)%nat
  then "The answer is: "
       ++ match iloc df 0 0 with Some v => str_cell pd v | None => "" end
  else
    let summary := "Found " ++ str_nat (len df) ++ " records" in
    match columns df with
    | [(col_name, d)] =>
        if is_int64_or_float64 d
        then summary ++ " with an average " ++ col_name ++ " of "
             ++ mean_2f pd (series df 0)
        else summary
    | _ => summary
    end.

Definition no_data_message : string :=
  "I couldn't find any data that matches your query. Please try rephrasing your question or check if the data exists.".

Definition response_prompt (original_query : string) (results : DataFrame cell)
    (query_type : string) : string :=
  nl ++ "Generate a clear, professional response to the user's health data query." ++ nl
  ++ nl
  ++ "Original Question: " ++ dquote ++ original_query ++ dquote ++ nl
  ++ "Query Type: " ++ query_type ++ nl
  ++ "Results Summary: " ++ str_nat (len results) ++ " rows, "
  ++ str_nat (length (columns results)) ++ " columns" ++ nl
  ++ nl
  ++ "Key Statistics:" ++ nl
  ++ get_result_summary results ++ nl
  ++ nl
  ++ "Provide a comprehensive but concise answer that:" ++ nl
  ++ "1. Directly addresses the user's question" ++ nl
  ++ "2. Highlights key findings from the data" ++ nl
  ++ "3. Provides context and insights where relevant" ++ nl
  ++ "4. Uses appropriate medical/health terminology" ++ nl
  ++ "5. Suggests follow-up questions if appropriate" ++ nl
  ++ nl
  ++ "Response:" ++ nl.

(** The text returned when the model call of [generate_response] fails. *)
Definition fallback_response (results : DataFrame cell) : string :=
  "Based on your query, I found " ++ str_nat (len results)
  ++ " records. Here's what the data shows:" ++ nl ++ nl
  ++ get_simple_summary results.

Definition generate_response (original_query : string)
    (results : option (DataFrame cell)) (query_type sql_query : string) : M string :=
  match results with
  | None => ret no_data_message
  | Some df =>
      if (len df =? 0)%nat then ret no_data_message
      else
        let prompt := response_prompt original_query df query_type in
        try_except
          (text <- generate_content prompt ;;
           ret (strip text))
          (fun e => ret (fallback_response df))
  end.

Definition viz_types : list string :=
  ["distribution"; "correlation"; "trend"; "group"].

Definition should_visualize (query_type : string) (results : option (DataFrame cell))
  : bool :=
  match results with
  | None => false
  | Some df =>
      if (len df =? 0)%nat then false
      else existsb (String.eqb query_type) viz_types && (1 <? len df)%nat
  end.

Definition handle_query_error (query error : string)
    (processed_data : list (Dataset cell)) : Response cell :=
  let response :=
    match processed_data with
    | first :: _ =>
        let sample_data := df_head 3 (dataframe first) in
        nl ++ "I encountered an issue processing your query: "
        ++ dquote ++ query ++ dquote ++ nl
        ++ nl
        ++ "Error: " ++ error ++ nl
        ++ nl
        ++ "Here's a sample of your data to help you rephrase your question:" ++ nl
        ++ nl
        ++ to_string pd sample_data ++ nl
        ++ nl
        ++ "You can try asking:" ++ nl
        ++ "- " ++ dquote ++ "How many records are there?" ++ dquote ++ nl
        ++ "- " ++ dquote ++ "What are the column names?" ++ dquote ++ nl
        ++ "- " ++ dquote ++ "Show me basic statistics" ++ dquote ++ nl
    | [] => "I couldn't process your query due to an error: " ++ error
    end in
  {| response := response;
     data := None;
     type := "error";
     sql_query := None;
     suggest_visualization := false |}.

(** [db_manager.execute_query(sql)]: the frame, or the exception raised. *)
Definition execute_query
    (db_manager : trace -> string -> result (option (DataFrame cell)))
    (sql : string) : M (option (DataFrame cell)) :=
  fun tr => (db_manager tr sql, (tr ++ [DbCall sql])%list).

Definition process_natural_language_query (query : string)
    (processed_data : list (Dataset cell))
    (db_manager : trace -> string -> result (option (DataFrame cell)))
  : M (Response cell) :=
  let query_type := classify_query query in
  let data_context := build_data_context processed_data in
  sql <- generate_sql_query query data_context query_type ;;
  try_except
    (results <- execute_query db_manager sql ;;
     text <- generate_response query results query_type sql ;;
     ret {| response := text;
            data := results;
            type := query_type;
            sql_query := Some sql;
            suggest_visualization := should_visualize query_type results |})
    (fun e => ret (handle_query_error query (str_exn e) processed_data)).

End LLMHandler.

Arguments column_info {cell} pd df j col d.
Arguments table_info {cell} pd d.
Arguments build_data_context {cell} pd processed_data.
Arguments get_result_summary {cell} pd df.
Arguments get_simple_summary {cell} pd df.
Arguments response_prompt {cell} pd original_query results query_type.
Arguments fallback_response {cell} pd results.
Arguments generate_response {cell} pd model original_query results query_type sql_query.
Arguments should_visualize {cell} query_type results.
Arguments handle_query_error {cell} pd query error processed_data.
Arguments execute_query {cell} db_manager sql.
Arguments process_natural_language_query {cell} pd model fence_tag query processed_data db_manager.

(** ** Vocabulary of the properties *)

(** A word [w] stands alone in [s]: it occurs with no word character
    right before it and none right after it. *)
Definition standalone (w s : string) : Prop :=
  exists pre post,
    s = pre ++ w ++ post /\
    word_side (last_or None pre) = false /\
    word_side (head post) = false.

(** The closed enumeration of intents. *)
Definition intents : list string :=
  ["count"; "average"; "max"; "min"; "sum"; "distribution"; "correlation";
   "filter"; "group"; "trend"; "general"].

(** The rule at position [n] of the table. *)
Definition rule_at (n : nat) (intent : string) (alts : list string) : Prop :=
  nth_error query_patterns n = Some (intent, alts).

(** The pattern of [intent] matches the question, case-insensitively. *)
Definition matches (intent query : string) : Prop :=
  exists n alts, rule_at n intent alts /\ search_words alts (lower query) = true.

(** [i] comes before [j] in the rule order. *)
Definition declared_before (i j : string) : Prop :=
  exists a b pi pj, rule_at a i pi /\ rule_at b j pj /\ a < b.

(** [w] occurs in [s] as a substring. *)
Definition occurs (w s : string) : Prop :=
  exists pre post, s = pre ++ w ++ post.

(** The message of the exception that leaves [generate_sql_query]. *)
Definition generation_error (e : exn) : exn :=
  Exception ("Failed to generate SQL query: " ++ str_exn e).

Arguments generation_error e /.

(** The response built on the success path. *)
Definition success_response {cell : Type} (query sql : string) (results : option (DataFrame cell))
    (text : string) : Response cell :=
  {| response := text;
     data := results;
     type := classify_query query;
     sql_query := Some sql;
     suggest_visualization := should_visualize (classify_query query) results |}.

(** ** Sample collaborators and results *)

(** Sample collaborators for concrete runs. *)
Definition sample_pandas : Pandas nat :=
  {| isnull_sum := fun _ => 0;
     nunique := fun values => length (nodup Nat.eq_dec values);
     dropna_unique := fun values => nodup Nat.eq_dec values;
     repr_list := fun values => "[" ++ join ", " (map str_nat values) ++ "]";
     str_cell := str_nat;
     mean_2f := fun values => str_nat (fold_right Nat.add 0 values / length values) ++ ".00";
     median_2f := fun values => str_nat (nth (length values / 2) values 0) ++ ".00";
     value_counts_index := fun values => nodup Nat.eq_dec values;
     to_string := fun df => join nl (map (fun row => join " " (map str_nat row)) (rows df)) |}.

Definition patients : Dataset nat :=
  {| table := "patients";
     dataframe := {| columns := [("id", int64); ("age", int64)];
                     rows := [[1; 34]; [2; 58]; [3; 41]; [4; 29]] |} |}.

(** A model that cannot be reached. *)
Definition unreachable_model : trace -> string -> result string :=
  fun _ _ => Raise (Exception "model unreachable").

(** A model that answers every prompt with the same text. *)
Definition constant_model (text : string) : trace -> string -> result string :=
  fun _ _ => Ok text.

(** A store that returns the same frame for every query. *)
Definition constant_db (df : DataFrame nat)
  : trace -> string -> result (option (DataFrame nat)) :=
  fun _ _ => Ok (Some df).

(** A store that rejects every query. *)
Definition failing_db : trace -> string -> result (option (DataFrame nat)) :=
  fun _ _ => Raise (Exception "no such table: patients").

(** A result with no rows. *)
Definition empty_result : DataFrame nat :=
  {| columns := [("COUNT(*)", int64)]; rows := [] |}.

(** A numeric column next to a text column. *)
Definition ages_and_names : DataFrame nat :=
  {| columns := [("age", int64); ("name", object)];
     rows := [[34; 1]; [58; 2]] |}.

(** One numeric column, two rows. *)
Definition two_ages : DataFrame nat :=
  {| columns := [("age", int64)]; rows := [[30]; [50]] |}.

(** A model that writes the SQL on its first call and only blanks after. *)
Definition blank_narrator : trace -> string -> result string :=
  fun tr _ =>
    match tr with
    | [] => Ok "SELECT age FROM patients"
    | _ => Ok "  "
    end.

(** ** The query validator of [utils/validators.py] *)

(** Every character of [s] satisfies [p]. *)
Fixpoint all_chars (p : ascii -> bool) (s : string) : bool :=
  match s with
  | EmptyString => true
  | String c r => p c && all_chars p r
  end.

(** The character is in the ASCII range. *)
Definition is_ascii (c : ascii) : bool := (code c <? 128)%nat.

Definition restricted_keywords : list string :=
  ["DROP"; "DELETE"; "UPDATE"; "INSERT"; "CREATE"; "ALTER"; "TRUNCATE"].

(** The loop of [validate_query]: the first keyword found. *)
Fixpoint first_restricted (keywords : list string) (query_upper : string)
  : option string :=
  match keywords with
  | [] => None
  | keyword :: rest =>
      if contains keyword query_upper then Some keyword
      else first_restricted rest query_upper
  end.

Definition validate_query (query : string) : bool * string :=
  if (String.length query =? 0)%nat || (String.length (strip query) =? 0)%nat
  then (false, "Query cannot be empty")
  else if (2000 <? String.length query)%nat
  then (false, "Query is too long (max 2000 characters)")
  else
    let query_upper := upper query in
    match first_restricted restricted_keywords query_upper with
    | Some keyword => (false, "Query contains restricted keyword: " ++ keyword)
    | None => (true, "Valid query")
    end.

(** ** Column names in [utils/data_processor.py] *)

Definition is_letter (c : ascii) : bool := is_upper c || is_lower c.

Fixpoint filter_chars (p : ascii -> bool) (s : string) : string :=
  match s with
  | EmptyString => EmptyString
  | String c r => if p c then String c (filter_chars p r) else filter_chars p r
  end.

(** [re.sub(r'[^\w\s]', '', s)]. *)
Definition remove_special (s : string) : string :=
  filter_chars (fun c => is_word c || is_space c) s.

(** [re.sub(r'\s+', '_', s)]: [in_run] tells that the character before
    was whitespace, already replaced. *)
Fixpoint sub_ws_runs (in_run : bool) (s : string) : string :=
  match s with
  | EmptyString => EmptyString
  | String c r =>
      if is_space c
      then if in_run then sub_ws_runs true r else String "_" (sub_ws_runs true r)
      else String c (sub_ws_runs false r)
  end.

(** [s.title()]: a letter is uppercased unless the character before it
    is a letter, in which case it is lowercased. *)
Fixpoint title_from (previous_is_cased : bool) (s : string) : string :=
  match s with
  | EmptyString => EmptyString
  | String c r =>
      String (if previous_is_cased then lower_char c else upper_char c)
             (title_from (is_letter c) r)
  end.

Definition title (s : string) : string := title_from false s.

(** The body of the loop of [clean_column_names]. *)
Definition clean_column_name (col : string) : string :=
  let clean_col := remove_special col in
  let clean_col := sub_ws_runs false (strip clean_col) in
  title clean_col.

(** [clean_column_names]: the renamed columns and the processing log;
    [clock] gives the time stamp of an entry from the number of entries
    before it. *)
Definition log_operation (clock : nat -> string) (processing_log : list string)
    (operation : string) : list string :=
  let line := "[" ++ clock (length processing_log) ++ "] " ++ operation in
  List.app processing_log [line].

Definition clean_column_names (clock : nat -> string) (original_columns : list string)
    (processing_log : list string) : list string * list string :=
  let new_columns := map clean_column_name original_columns in
  let changes :=
    filter (fun on => negb (String.eqb (fst on) (snd on)))
           (combine original_columns new_columns) in
  match changes with
  | [] => (new_columns, processing_log)
  | _ :: _ =>
      (new_columns,
       log_operation clock processing_log
         ("Cleaned column names: " ++ str_nat (length changes) ++ " columns renamed"))
  end.

(** ** The table name of an upload in [app.py] *)

(** [s.split(sep)[0]] for a one-character separator. *)
Fixpoint before_first (sep : ascii) (s : string) : string :=
  match s with
  | EmptyString => EmptyString
  | String c r => if Ascii.eqb c sep then EmptyString else String c (before_first sep r)
  end.

(** [f"data_{file.name.split('.')[0].lower()}"] in [handle_file_upload]. *)
Definition upload_table_name (file_name : string) : string :=
  "data_" ++ lower (before_first "." file_name).

(** ** Suggested questions in [components/chat.py] *)

Section Suggestions.

Variable cell : Type.

(** An entry of [processed_data] as the chat sees it: the key ['name']
    next to the keys read by the handler. *)
Record Upload : Type := {
  name : string;
  entry : Dataset cell
}.

Definition first_column (p : dtype -> bool) (df : DataFrame cell) : option string :=
  match filter (fun c => p (snd c)) (columns df) with
  | c :: _ => Some (fst c)
  | [] => None
  end.

(** The suggestions one entry adds. *)
Definition suggestions_for (data : Upload) : list string :=
  let df := dataframe (entry data) in
  let basic :=
    [ "How many records are in " ++ name data ++ "?";
      "What are the main statistics for " ++ name data ++ "?";
      "Show me a summary of missing data" ] in
  let numeric :=
    match first_column is_number df with
    | Some col =>
        [ "What is the average " ++ col ++ "?";
          "Show distribution of " ++ col;
          "Find outliers in " ++ col ]
    | None => []
    end in
  let categorical :=
    match first_column is_object df with
    | Some col =>
        [ "What are the unique values in " ++ col ++ "?";
          "Show frequency distribution of " ++ col ]
    | None => []
    end in
  List.app basic (List.app numeric categorical).

Definition generate_smart_suggestions (processed_data : list Upload) : list string :=
  firstn 10 (flat_map suggestions_for processed_data).

End Suggestions.

Arguments name {cell} u.
Arguments entry {cell} u.
Arguments first_column {cell} p df.
Arguments suggestions_for {cell} data.
Arguments generate_smart_suggestions {cell} processed_data.

(** ** File validation in [utils/validators.py] *)

(** What [validate_csv_file] does to the page and to the file. *)
Inductive ui_event : Type :=
| StError (msg : string)
| ReadCsv (file_name : string) (nrows : nat)
| Seek (file_name : string) (position : nat).

(** An uploaded file: its name and its [size] attribute, when it has one. *)
Record UploadedFile : Type := {
  file_name : string;
  size : option N
}.

Definition max_upload_size : N := 200 * 1024 * 1024.

Definition st_errors (events : list ui_event) : list string :=
  flat_map (fun ev => match ev with StError m => [m] | _ => [] end) events.

Definition reads (events : list ui_event) : list string :=
  flat_map (fun ev => match ev with ReadCsv f _ => [f] | _ => [] end) events.

Section FileValidation.

Variable cell : Type.

(** [Path(name).suffix] of pathlib. *)
Variable path_suffix : string -> string.

(** [pd.read_csv(file, nrows=n)]: the sample, or the exception raised. *)
Variable read_csv : UploadedFile -> nat -> result (DataFrame cell).

(** [df.empty]: one of the two axes has length zero. *)
Definition df_empty (df : DataFrame cell) : bool :=
  (len df =? 0)%nat || (length (columns df) =? 0)%nat.

(** The outcome and what was done on the way; of the calls in the [try]
    block, [pd.read_csv] is the one taken to raise. *)
Definition validate_csv_file (file : UploadedFile) : bool * list ui_event :=
  let oversize :=
    match size file with
    | Some n => (max_upload_size <? n)%N
    | None => false
    end in
  if oversize
  then (false,
        [StError ("File " ++ file_name file ++ " is too large. Maximum size is 200MB.")])
  else
    let file_extension := lower (path_suffix (file_name file)) in
    if negb (existsb (String.eqb file_extension) [".csv"; ".xlsx"; ".json"])
    then (false, [StError ("Unsupported file type: " ++ file_extension)])
    else if String.eqb file_extension ".csv"
    then
      match read_csv file 5 with
      | Raise e =>
          (false,
           [ReadCsv (file_name file) 5;
            StError ("Error validating file " ++ file_name file ++ ": " ++ str_exn e)])
      | Ok sample_df =>
          if df_empty sample_df
          then (false,
                [ReadCsv (file_name file) 5; Seek (file_name file) 0;
                 StError ("File " ++ file_name file ++ " appears to be empty.")])
          else if (length (columns sample_df) <? 1)%nat
          then (false,
                [ReadCsv (file_name file) 5; Seek (file_name file) 0;
                 StError ("File " ++ file_name file ++ " must have at least 1 column.")])
          else (true, [ReadCsv (file_name file) 5; Seek (file_name file) 0])
      end
    else (true, []).

End FileValidation.

Arguments df_empty {cell} df.
Arguments validate_csv_file {cell} path_suffix read_csv file.

(** The classifier and the sanitizer on the questions and candidates of
    the end-to-end scenarios. *)
Example classify_how_many :
  classify_query "How many patients are there?" = "count".
Proof. reflexivity. Qed.

Example classify_trend :
  classify_query "Show the trend of weight over time" = "trend".
Proof. reflexivity. Qed.

Example clean_fenced_select :
  clean_sql_query "sql" "```sql
SELECT COUNT(*) FROM patients;
```" = Ok "SELECT COUNT(*) FROM patients;".
Proof. reflexivity. Qed.

(** ** Facts about strings *)

Section StringFacts.

Lemma strip_prefix_app (w post : string) : strip_prefix w (w ++ post) = Some post.
Proof.
  induction w as [|c w IH]; simpl; [reflexivity|].
  now rewrite Ascii.eqb_refl.
Qed.

Lemma strip_prefix_sound (p : string) : forall s rest,
  strip_prefix p s = Some rest -> s = p ++ rest.
Proof.
  induction p as [|a p IH]; intros s rest H; simpl in *.
  - now inversion H.
  - destruct s as [|b s]; [discriminate|].
    destruct (Ascii.eqb_spec a b) as [->|]; [|discriminate].
    now rewrite (IH _ _ H).
Qed.

Lemma startswith_app (w post : string) : startswith (w ++ post) w = true.
Proof. unfold startswith. now rewrite strip_prefix_app. Qed.

Lemma contains_app (w : string) : forall pre post,
  contains w (pre ++ w ++ post) = true.
Proof.
  induction pre as [|c pre IH]; intros post.
  - simpl. destruct (w ++ post) eqn:E; simpl; rewrite <- E, startswith_app; reflexivity.
  - simpl. rewrite IH. apply orb_true_r.
Qed.

Lemma map_chars_app (f : ascii -> ascii) (a b : string) :
  map_chars f (a ++ b) = map_chars f a ++ map_chars f b.
Proof. induction a as [|c a IH]; simpl; [reflexivity|now rewrite IH]. Qed.

Lemma append_assoc (a b c : string) : (a ++ b) ++ c = a ++ b ++ c.
Proof. induction a as [|x a IH]; simpl; [reflexivity|now rewrite IH]. Qed.

Lemma length_app (a b : string) :
  String.length (a ++ b) = String.length a + String.length b.
Proof. induction a as [|x a IH]; simpl; [reflexivity|now rewrite IH]. Qed.

Lemma append_nil_r (a : string) : a ++ "" = a.
Proof. induction a as [|x a IH]; simpl; [reflexivity|now rewrite IH]. Qed.

End StringFacts.

(** ** The intent classifier *)

Section Classifier.

Lemma search_from_occurrence (alts : list string) (w post : string) :
  In w alts ->
  forall pre prev,
    boundary (last_or prev pre) (head (w ++ post)) = true ->
    boundary (last_or (last_or prev pre) w) (head post) = true ->
    search_from alts prev (pre ++ w ++ post) = true.
Proof.
  intros Hin. induction pre as [|c pre IH]; intros prev Hb He; simpl in *.
  - assert (E : existsb (match_alt_here prev (w ++ post)) alts = true).
    { apply existsb_exists. exists w. split; [assumption|].
      unfold match_alt_here. now rewrite Hb, strip_prefix_app. }
    destruct (w ++ post); simpl; rewrite E; reflexivity.
  - rewrite (IH (Some c) Hb He). apply orb_true_r.
Qed.

Lemma search_words_standalone (alts : list string) (c : ascii) (w s : string) :
  In (String c w) alts ->
  is_word c = true ->
  word_side (last_or None (String c w)) = true ->
  standalone (String c w) s ->
  search_words alts s = true.
Proof.
  intros Hin Hc Hl (pre & post & -> & Hpre & Hpost).
  unfold search_words. apply search_from_occurrence; [assumption| |].
  - unfold boundary. rewrite Hpre. simpl. now rewrite Hc.
  - unfold boundary. rewrite Hpost.
    replace (last_or (last_or None pre) (String c w)) with (last_or None (String c w))
      by reflexivity.
    now rewrite Hl.
Qed.

(** The loop returns the tag of the first rule whose pattern matches. *)
Lemma classify_loop_first (s : string) : forall items a i pi,
  nth_error items a = Some (i, pi) ->
  search_words pi s = true ->
  exists c k pk,
    c <= a /\ nth_error items c = Some (k, pk) /\ search_words pk s = true /\
    (forall c' k' pk', c' < c -> nth_error items c' = Some (k', pk') ->
                       search_words pk' s = false) /\
    classify_loop items s = k.
Proof.
  induction items as [|[t p] items IH]; intros a i pi Hn Hs.
  - destruct a; discriminate.
  - destruct (search_words p s) eqn:E.
    + exists 0, t, p.
      split; [lia|]. split; [reflexivity|]. split; [assumption|]. split.
      * intros c' k' pk' Hc. lia.
      * simpl. now rewrite E.
    + destruct a as [|a].
      * simpl in Hn. inversion Hn; subst. congruence.
      * simpl in Hn. destruct (IH a i pi Hn Hs) as (c & k & pk & Hle & Hc & Hm & Hmin & Hr).
        exists (S c), k, pk.
        split; [lia|]. split; [assumption|]. split; [assumption|]. split.
        -- intros [|c'] k' pk' Hlt Hn'; simpl in Hn'.
           ++ inversion Hn'; subst. assumption.
           ++ apply (Hmin c' k' pk'); [lia|assumption].
        -- simpl. now rewrite E.
Qed.

Lemma classify_loop_none (s : string) : forall items,
  (forall n t p, nth_error items n = Some (t, p) -> search_words p s = false) ->
  classify_loop items s = "general".
Proof.
  induction items as [|[t p] items IH]; intros H; simpl; [reflexivity|].
  rewrite (H 0 t p eq_refl). apply IH.
  intros n t' p' Hn. apply (H (S n) t' p' Hn).
Qed.

Lemma classify_loop_range (s : string) : forall items,
  classify_loop items s = "general" \/ In (classify_loop items s) (map fst items).
Proof.
  induction items as [|[t p] items IH]; simpl; [now left|].
  destruct (search_words p s); [right; now left|].
  destruct IH as [IH|IH]; [now left|right; now right].
Qed.

Lemma classify_query_in_intents (query : string) :
  In (classify_query query) intents.
Proof.
  unfold classify_query.
  destruct (classify_loop_range (lower query) query_patterns) as [H|H].
  - rewrite H. simpl. tauto.
  - simpl in H. simpl. tauto.
Qed.

Lemma query_patterns_keys_nodup : NoDup (map fst query_patterns).
Proof.
  repeat constructor; simpl; intuition discriminate.
Qed.

Lemma rule_at_key (n : nat) (i : string) (p : list string) :
  rule_at n i p -> nth_error (map fst query_patterns) n = Some i.
Proof. unfold rule_at. intros H. now rewrite nth_error_map, H. Qed.

Lemma rule_at_distinct (a b : nat) (i j : string) (pi pj : list string) :
  rule_at a i pi -> rule_at b j pj -> a <> b -> i <> j.
Proof.
  intros Ha Hb Hne ->.
  apply rule_at_key in Ha, Hb.
  pose proof query_patterns_keys_nodup as ND.
  rewrite NoDup_nth_error in ND.
  apply Hne, ND; [|congruence].
  apply nth_error_Some. congruence.
Qed.

Lemma rule_at_index (a b : nat) (i : string) (pi pj : list string) :
  rule_at a i pi -> rule_at b i pj -> a = b.
Proof.
  intros Ha Hb. destruct (Nat.eq_dec a b) as [|Hne]; [assumption|].
  exfalso. exact (rule_at_distinct a b i i pi pj Ha Hb Hne eq_refl).
Qed.

End Classifier.

(** ** Properties of the classifier and of the visualization selector *)

(** A question that matches the pattern of "sum" and, later in the rule
    order, that of "trend" is tagged neither of them but "count": "total"
    is a keyword of the count rule too, which is declared first. *)
Lemma earlier_of_two_matches_is_not_returned :
  declared_before "sum" "trend" /\
  matches "sum" "What is the total weight over time?" /\
  matches "trend" "What is the total weight over time?" /\
  classify_query "What is the total weight over time?" = "count" /\
  classify_query "What is the total weight over time?" <> "sum".
Proof.
  split.
  { exists 4, 9, ["sum"; "total"; "aggregate"], ["trend"; "over time"; "timeline"; "change"].
    repeat split. lia. }
  split.
  { exists 4, ["sum"; "total"; "aggregate"]. split; reflexivity. }
  split.
  { exists 9, ["trend"; "over time"; "timeline"; "change"]. split; reflexivity. }
  split; [reflexivity|discriminate].
Qed.

(** C4, as the code has it.  [classify_query] is a total function into the
    closed enumeration; it returns "general" exactly when the question
    matches no pattern; otherwise it returns the earliest-declared intent
    whose pattern matches: a matching intent is returned exactly when no
    intent declared before it matches, and of two matching intents the later
    one is never returned, the result being the earlier one or a matching
    intent declared even before it. *)
Theorem classify_first_match_wins (query : string) :
  In (classify_query query) intents /\
  (classify_query query = "general" <-> forall i, ~ matches i query) /\
  (forall i,
      matches i query ->
      (classify_query query = i <->
       forall k, declared_before k i -> ~ matches k query)) /\
  (forall i j,
      declared_before i j -> matches i query -> matches j query ->
      classify_query query <> j /\
      matches (classify_query query) query /\
      (classify_query query = i \/ declared_before (classify_query query) i)).
Proof.
  split; [apply classify_query_in_intents|].
  assert (Hfirst : forall i, matches i query ->
            exists c k pk,
              rule_at c k pk /\ search_words pk (lower query) = true /\
              (forall c' k' pk', c' < c -> rule_at c' k' pk' ->
                                 search_words pk' (lower query) = false) /\
              classify_query query = k /\
              (forall a pi, rule_at a i pi -> c <= a)).
  { intros i (a & pi & Ha & Hs).
    destruct (classify_loop_first _ _ _ _ _ Ha Hs) as (c & k & pk & Hle & Hc & Hm & Hmin & Hk).
    exists c, k, pk. repeat split; try assumption.
    intros a' pi' Ha'. now rewrite <- (rule_at_index _ _ _ _ _ Ha Ha'). }
  split; [|split].
  - split.
    + intros Hg i Hi. destruct (Hfirst i Hi) as (c & k & pk & Hc & _ & _ & Hk & _).
      rewrite Hg in Hk. subst k. apply rule_at_key in Hc.
      apply nth_error_In in Hc. simpl in Hc. intuition discriminate.
    + intros Hno. unfold classify_query. apply classify_loop_none. intros n t p Hn.
      destruct (search_words p (lower query)) eqn:E; [|reflexivity].
      exfalso. apply (Hno t). now exists n, p.
  - intros i Hi. destruct (Hfirst i Hi) as (c & k & pk & Hc & Hm & Hmin & Hk & Hle).
    destruct Hi as (a & pi & Ha & Hs). split.
    + intros E k0 (a0 & b0 & pk0 & pi0 & Hk0 & Hi0 & Hlt) (n & alts & Hn & Hsn).
      rewrite Hk in E. subst i.
      assert (c = b0) by exact (rule_at_index _ _ _ _ _ Hc Hi0). subst b0.
      assert (n = a0) by exact (rule_at_index _ _ _ _ _ Hn Hk0). subst n.
      rewrite (Hmin a0 k0 alts Hlt Hn) in Hsn. discriminate.
    + intros Hnone. rewrite Hk.
      destruct (Nat.eq_dec c a) as [->|Hne].
      * unfold rule_at in Ha, Hc. congruence.
      * exfalso. apply (Hnone k).
        -- exists c, a, pk, pi. repeat split; try assumption.
           pose proof (Hle a pi Ha). lia.
        -- now exists c, pk.
  - intros i j (a & b & pi & pj & Ha & Hb & Hlt) Hi Hj.
    destruct (Hfirst i Hi) as (c & k & pk & Hc & Hm & _ & Hk & Hle).
    pose proof (Hle a pi Ha) as Hca. rewrite Hk. split; [|split].
    + apply (rule_at_distinct c b k j pk pj Hc Hb). lia.
    + now exists c, pk.
    + destruct (Nat.eq_dec c a) as [->|Hne].
      * left. unfold rule_at in Ha, Hc. congruence.
      * right. exists c, a, pk, pi. repeat split; try assumption. lia.
Qed.

Lemma classify_first_match_wins_witness :
  declared_before "sum" "trend" /\
  matches "sum" "What is the sum of weight over time?" /\
  matches "trend" "What is the sum of weight over time?" /\
  classify_query "What is the sum of weight over time?" = "sum".
Proof.
  assert (Hb : declared_before "sum" "trend").
  { exists 4, 9, ["sum"; "total"; "aggregate"], ["trend"; "over time"; "timeline"; "change"].
    repeat split. lia. }
  assert (Hs : matches "sum" "What is the sum of weight over time?").
  { exists 4, ["sum"; "total"; "aggregate"]. split; reflexivity. }
  assert (Ht : matches "trend" "What is the sum of weight over time?").
  { exists 9, ["trend"; "over time"; "timeline"; "change"]. split; reflexivity. }
  split; [exact Hb|]. split; [exact Hs|]. split; [exact Ht|].
  destruct (classify_first_match_wins "What is the sum of weight over time?")
    as (_ & _ & _ & Hpair).
  destruct (Hpair "sum" "trend" Hb Hs Ht) as (_ & _ & [H|H]); [exact H|].
  reflexivity.
Defined.

(** C10.  A question whose lowercase form contains the standalone word
    "total" is tagged "count", never "sum": the count rule is declared
    first and the first match wins. *)
Theorem total_is_count_never_sum (query : string) :
  standalone "total" (lower query) ->
  classify_query query = "count" /\ classify_query query <> "sum".
Proof.
  intros H.
  assert (E : search_words ["how many"; "count"; "number of"; "total"] (lower query) = true).
  { apply (search_words_standalone _ "t" "otal"); try reflexivity; [|assumption].
    simpl. tauto. }
  assert (C : classify_query query = "count").
  { unfold classify_query, query_patterns, load_query_patterns. simpl. now rewrite E. }
  split; [assumption|]. rewrite C. discriminate.
Qed.

Lemma total_is_count_never_sum_witness :
  standalone "total" (lower "What is the TOTAL cost?") /\
  classify_query "What is the TOTAL cost?" = "count" /\
  classify_query "What is the TOTAL cost?" <> "sum".
Proof.
  assert (H : standalone "total" (lower "What is the TOTAL cost?")).
  { exists "what is the ", " cost?". repeat split. }
  split; [exact H|].
  exact (total_is_count_never_sum "What is the TOTAL cost?" H).
Defined.

(** C7.  [should_visualize] is true exactly when the result is a frame that
    is not empty, has more than one row, and the intent is one of
    distribution, correlation, trend and group; it is false on every
    one-row result and true for trend with five rows. *)
Theorem should_visualize_iff (cell : Type) :
  (forall (query_type : string) (results : option (DataFrame cell)),
      should_visualize query_type results = true <->
      exists df, results = Some df /\ len df <> 0 /\ 1 < len df /\
                 In query_type ["distribution"; "correlation"; "trend"; "group"]) /\
  (forall (query_type : string) (df : DataFrame cell),
      len df = 1 -> should_visualize query_type (Some df) = false) /\
  (forall df : DataFrame cell,
      len df = 5 -> should_visualize "trend" (Some df) = true).
Proof.
  assert (Hin : forall q, existsb (String.eqb q) viz_types = true <->
                          In q ["distribution"; "correlation"; "trend"; "group"]).
  { intros q. rewrite existsb_exists. split.
    - intros (x & Hx & E). apply String.eqb_eq in E. now subst.
    - intros H. exists q. split; [assumption|apply String.eqb_refl]. }
  split; [|split].
  - intros query_type [df|]; unfold should_visualize.
    + destruct (Nat.eqb_spec (len df) 0) as [E|E].
      * split; [discriminate|]. intros (df' & Hdf & Hne & _). inversion Hdf; subst. contradiction.
      * rewrite andb_true_iff, Hin, Nat.ltb_lt. split.
        -- intros [H1 H2]. exists df. tauto.
        -- intros (df' & Hdf & _ & Hlt & Hq). inversion Hdf; subst. tauto.
    + split; [discriminate|]. intros (df' & Hdf & _). discriminate.
  - intros query_type df E. unfold should_visualize. rewrite E. simpl.
    apply andb_false_r.
  - intros df E. unfold should_visualize. rewrite E. reflexivity.
Qed.

Lemma should_visualize_iff_witness :
  should_visualize "trend"
    (Some {| columns := [("day", object); ("weight", float64)];
             rows := [[1; 70]; [2; 71]; [3; 71]; [4; 72]; [5; 73]] |}) = true.
Proof.
  apply (proj2 (proj2 (should_visualize_iff nat))). reflexivity.
Defined.

(** ** The SQL sanitizer *)

Section Sanitizer.

Lemma contains_occurs (w : string) : forall s, contains w s = true -> occurs w s.
Proof.
  induction s as [|c s IH]; simpl; intros H.
  - rewrite orb_false_r in H. unfold startswith in H.
    destruct (strip_prefix w "") as [rest|] eqn:E; [|discriminate].
    exists "", rest. simpl. now apply strip_prefix_sound.
  - apply orb_true_iff in H. destruct H as [H|H].
    + unfold startswith in H.
      destruct (strip_prefix w (String c s)) as [rest|] eqn:E; [|discriminate].
      exists "", rest. simpl. now apply strip_prefix_sound.
    + destruct (IH H) as (pre & post & ->).
      now exists (String c pre), post.
Qed.

Lemma occurs_contains (w s : string) : occurs w s -> contains w s = true.
Proof. intros (pre & post & ->). apply contains_app. Qed.

Lemma occurs_app_l (w a b : string) : occurs (a ++ b) w -> occurs a w.
Proof.
  intros (pre & post & ->). exists pre, (b ++ post). now rewrite append_assoc.
Qed.

Variable tag : string.

Lemma fence_head (c : ascii) (r : string) :
  c <> "`"%char -> strip_prefix (fence tag) (String c r) = None.
Proof.
  intros Hc. unfold fence. cbn [append strip_prefix].
  destruct (Ascii.eqb_spec "`"%char c) as [E|E]; [now subst|reflexivity].
Qed.

(** Text with no backquote is copied. *)
Lemma sub_fence_copy (post : string) : forall u,
  mem_char "`" u = false ->
  sub_fence tag (u ++ post) = u ++ sub_fence tag post.
Proof.
  induction u as [|c u IH]; intros H; [reflexivity|].
  cbn [mem_char] in H. apply orb_false_iff in H. destruct H as [Hc Hu].
  cbn [append]. rewrite sub_fence_step, fence_head.
  - now rewrite IH.
  - intros ->. discriminate.
Qed.

Lemma sub_fence_plain (u : string) :
  mem_char "`" u = false -> sub_fence tag u = u.
Proof.
  intros H. rewrite <- (append_nil_r u) at 1.
  rewrite (sub_fence_copy "" u H), sub_fence_step. simpl. apply append_nil_r.
Qed.

(** A prefix without the character [d] ends before an occurrence that
    starts with [d]. *)
Lemma prefix_before (d : ascii) (x : string) : forall p rest pre,
  mem_char d p = false ->
  p ++ rest = pre ++ String d x ->
  exists pre2, pre = p ++ pre2 /\ rest = pre2 ++ String d x.
Proof.
  induction p as [|a p IH]; intros rest pre Hp E; cbn [mem_char append] in *.
  - now exists pre.
  - apply orb_false_iff in Hp. destruct Hp as [Ha Hp].
    destruct pre as [|b pre]; simpl in E; inversion E; subst.
    + now rewrite Ascii.eqb_refl in Ha.
    + destruct (IH _ _ Hp H1) as (pre2 & -> & ->). now exists pre2.
Qed.

Lemma lstrip_before (p : ascii -> bool) (d : ascii) (x : string) :
  p d = false ->
  forall pre, exists pre3,
    lstrip_if p (pre ++ String d x) = pre3 ++ String d x /\
    String.length pre3 <= String.length pre.
Proof.
  intros Hd. induction pre as [|c pre (pre3 & E & L)]; simpl.
  - exists "". rewrite Hd. split; [reflexivity|simpl; lia].
  - destruct (p c).
    + exists pre3. split; [assumption|lia].
    + exists (String c pre). split; [reflexivity|simpl; lia].
Qed.

Lemma rstrip_keeps (p : ascii -> bool) (c : ascii) (post : string) :
  p c = false ->
  forall u, rstrip_if p (u ++ String c post) = u ++ String c (rstrip_if p post).
Proof.
  intros Hc. induction u as [|a u IH]; simpl.
  - rewrite Hc. now destruct (rstrip_if p post).
  - rewrite IH. now destruct u.
Qed.

(** The substitution keeps an occurrence that has no backquote and starts
    with a character that is not whitespace and not part of the tag. *)
Lemma sub_fence_keeps (d : ascii) (w post : string) :
  d <> "`"%char -> is_space d = false -> mem_char d tag = false ->
  mem_char "`" w = false ->
  forall n pre, String.length pre <= n ->
    exists pre', sub_fence tag (pre ++ String d w ++ post)
                 = pre' ++ String d w ++ sub_fence tag post.
Proof.
  intros Hbq Hsp Htag Hw.
  assert (Hdw : mem_char "`" (String d w) = false).
  { cbn [mem_char]. rewrite Hw, orb_false_r.
    destruct (Ascii.eqb_spec "`"%char d); [now subst|reflexivity]. }
  assert (Hfence : mem_char d (fence tag) = false).
  { unfold fence. cbn [append mem_char]. rewrite Htag.
    destruct (Ascii.eqb_spec d "`"%char); [contradiction|reflexivity]. }
  induction n as [|n IH]; intros pre Hlen.
  - destruct pre; [|simpl in Hlen; lia].
    exists "". simpl.
    change (String d (w ++ post)) with (String d w ++ post).
    now rewrite (sub_fence_copy post _ Hdw).
  - destruct pre as [|c pre1].
    + exists "". simpl.
      change (String d (w ++ post)) with (String d w ++ post).
      now rewrite (sub_fence_copy post _ Hdw).
    + rewrite sub_fence_step.
      destruct (strip_prefix (fence tag) (String c pre1 ++ String d w ++ post))
        as [rest|] eqn:E.
      * apply strip_prefix_sound in E. simpl in E.
        change (String c (pre1 ++ String d (w ++ post)))
          with (String c pre1 ++ String d (w ++ post)) in E.
        symmetry in E.
        destruct (prefix_before d (w ++ post) _ _ _ Hfence E) as (pre2 & Hpre & ->).
        destruct (lstrip_before is_space d (w ++ post) Hsp pre2) as (pre3 & -> & L).
        apply (IH pre3).
        assert (String.length (String c pre1) = String.length (fence tag ++ pre2))
          by now rewrite Hpre.
        rewrite length_app in H. unfold fence in H. simpl in *. lia.
      * simpl in Hlen.
        destruct (IH pre1 ltac:(lia)) as (pre' & E').
        exists (String c pre'). simpl in *. now rewrite E'.
Qed.

End Sanitizer.

Section KeepsDrop.

Lemma sub_fence_occurs (tag s : string) :
  mem_char "D" tag = false -> occurs "DROP" s -> occurs "DROP" (sub_fence tag s).
Proof.
  intros Htag (pre & post & ->).
  destruct (sub_fence_keeps tag "D" "ROP" post) with (n := String.length pre) (pre := pre)
    as (pre' & E); try reflexivity; try assumption; [discriminate|].
  rewrite E. now exists pre', (sub_fence tag post).
Qed.

Lemma rstrip_if_occurs (p : ascii -> bool) (s : string) :
  p "P"%char = false -> occurs "DROP" s -> occurs "DROP" (rstrip_if p s).
Proof.
  intros Hp (pre & post & ->).
  replace (pre ++ "DROP" ++ post) with ((pre ++ "DRO") ++ String "P" post)
    by (rewrite append_assoc; reflexivity).
  rewrite (rstrip_keeps p "P" post Hp).
  exists pre, (rstrip_if p post). rewrite append_assoc. reflexivity.
Qed.

Lemma lstrip_if_occurs (p : ascii -> bool) (s : string) :
  p "D"%char = false -> occurs "DROP" s -> occurs "DROP" (lstrip_if p s).
Proof.
  intros Hp (pre & post & ->).
  destruct (lstrip_before p "D" ("ROP" ++ post) Hp pre) as (pre3 & E & _).
  change (pre ++ "DROP" ++ post) with (pre ++ String "D" ("ROP" ++ post)).
  rewrite E. now exists pre3, post.
Qed.

Lemma upper_occurs (s : string) : occurs "DROP" s -> occurs "DROP" (upper s).
Proof.
  intros (pre & post & ->). unfold upper. rewrite !map_chars_app.
  now exists (map_chars upper_char pre), (map_chars upper_char post).
Qed.

Lemma strip_artifacts_occurs (tag raw : string) :
  mem_char "D" tag = false ->
  occurs "DROP" raw ->
  occurs "DROP" (upper (strip_artifacts tag raw)).
Proof.
  intros Htag H. unfold strip_artifacts, strip, rstrip_chars.
  apply upper_occurs.
  apply rstrip_if_occurs; [reflexivity|].
  apply lstrip_if_occurs; [reflexivity|].
  apply rstrip_if_occurs; [reflexivity|].
  apply sub_fence_occurs; [reflexivity|].
  now apply sub_fence_occurs.
Qed.

Lemma first_dangerous_drop (query_upper : string) :
  contains "DROP" query_upper = true ->
  startswith query_upper "SELECT" = false ->
  first_dangerous dangerous_keywords query_upper = Some "DROP".
Proof.
  intros Hc Hs. unfold dangerous_keywords. cbn [first_dangerous].
  now rewrite Hc, Hs.
Qed.

(** Text without backquotes goes through the two substitutions as it is,
    whatever the tag. *)
Lemma strip_artifacts_plain (tag raw : string) :
  mem_char "`" raw = false ->
  strip_artifacts tag raw = strip (rstrip_chars ";" raw).
Proof.
  intros H. unfold strip_artifacts.
  now rewrite (sub_fence_plain tag raw H), (sub_fence_plain "" raw H).
Qed.

End KeepsDrop.

(** C5.  An input that contains "DROP TABLE x" and whose stripped text,
    uppercased as in the check, does not begin with SELECT is rejected with
    the error that names DROP; the input
    "SELECT * FROM x WHERE note = 'DROP'" is accepted as it is.  The fence
    tag of the first substitution is any literal without a capital D. *)
Theorem clean_sql_query_drop_table (fence_tag : string) :
  (forall raw : string,
      mem_char "D" fence_tag = false ->
      contains "DROP TABLE x" raw = true ->
      startswith (upper (strip_artifacts fence_tag raw)) "SELECT" = false ->
      clean_sql_query fence_tag raw
      = Raise (ValueError "Dangerous SQL operation detected: DROP")) /\
  clean_sql_query fence_tag "SELECT * FROM x WHERE note = 'DROP'"
  = Ok "SELECT * FROM x WHERE note = 'DROP'".
Proof.
  split.
  - intros raw Htag Hin Hsel. unfold clean_sql_query.
    assert (Ho : occurs "DROP" raw).
    { apply contains_occurs in Hin. now apply (occurs_app_l raw "DROP" " TABLE x"). }
    apply (strip_artifacts_occurs fence_tag raw Htag), occurs_contains in Ho.
    now rewrite (first_dangerous_drop _ Ho Hsel).
  - unfold clean_sql_query.
    rewrite strip_artifacts_plain by reflexivity.
    reflexivity.
Qed.

Lemma clean_sql_query_drop_table_witness :
  clean_sql_query "sql" "```sql
DROP TABLE x;
```"
  = Raise (ValueError "Dangerous SQL operation detected: DROP").
Proof.
  apply (proj1 (clean_sql_query_drop_table "sql")); reflexivity.
Defined.


(** ** The orchestrator *)

Section Pipeline.

Variable cell : Type.
Variable pd : Pandas cell.
Variable model : trace -> string -> result string.
Variable fence_tag : string.

Lemma generate_sql_query_run (query data_context query_type : string) (tr : trace) :
  let prompt := sql_prompt query data_context query_type in
  generate_sql_query model fence_tag query data_context query_type tr =
  (match model tr prompt with
   | Ok text =>
       match clean_sql_query fence_tag (strip text) with
       | Ok sql => Ok sql
       | Raise e => Raise (generation_error e)
       end
   | Raise e => Raise (generation_error e)
   end, (tr ++ [ModelCall prompt])%list).
Proof.
  unfold generate_sql_query, try_except, bind, lift, ret, raise, generate_content.
  cbv zeta.
  destruct (model tr _) as [text|e]; [|reflexivity].
  destruct (clean_sql_query fence_tag (strip text)); reflexivity.
Qed.

Lemma generate_response_run (original_query : string)
    (results : option (DataFrame cell)) (query_type sql : string) (tr : trace) :
  generate_response pd model original_query results query_type sql tr =
  match results with
  | None => (Ok no_data_message, tr)
  | Some df =>
      if (len df =? 0)%nat then (Ok no_data_message, tr)
      else
        let prompt := response_prompt pd original_query df query_type in
        (Ok match model tr prompt with
            | Ok text => strip text
            | Raise _ => fallback_response pd df
            end, (tr ++ [ModelCall prompt])%list)
  end.
Proof.
  unfold generate_response. destruct results as [df|]; [|reflexivity].
  destruct (len df =? 0)%nat; [reflexivity|].
  unfold try_except, bind, ret, generate_content. cbv zeta.
  destruct (model tr _); reflexivity.
Qed.

Variable db_manager : trace -> string -> result (option (DataFrame cell)).

Lemma process_run (query : string) (processed_data : list (Dataset cell)) (tr : trace) :
  let prompt :=
    sql_prompt query (build_data_context pd processed_data) (classify_query query) in
  let tr1 := (tr ++ [ModelCall prompt])%list in
  process_natural_language_query pd model fence_tag query processed_data db_manager tr =
  match model tr prompt with
  | Raise e => (Raise (generation_error e), tr1)
  | Ok text =>
      match clean_sql_query fence_tag (strip text) with
      | Raise e => (Raise (generation_error e), tr1)
      | Ok sql =>
          let tr2 := (tr1 ++ [DbCall sql])%list in
          match db_manager tr1 sql with
          | Raise e =>
              (Ok (handle_query_error pd query (str_exn e) processed_data), tr2)
          | Ok results =>
              match generate_response pd model query results (classify_query query) sql tr2
              with
              | (Ok text, tr3) => (Ok (success_response query sql results text), tr3)
              | (Raise e, tr3) =>
                  (Ok (handle_query_error pd query (str_exn e) processed_data), tr3)
              end
          end
      end
  end.
Proof.
  cbv zeta. unfold process_natural_language_query, bind.
  rewrite generate_sql_query_run. cbv zeta.
  destruct (model tr _) as [text|e]; [|reflexivity].
  destruct (clean_sql_query fence_tag (strip text)) as [sql|e]; [|reflexivity].
  unfold try_except, bind, execute_query, ret.
  destruct (db_manager _ sql) as [results|e]; [|reflexivity].
  destruct (generate_response _ _ _ _ _ _ _) as [[text'|e] tr3]; reflexivity.
Qed.

End Pipeline.


(** ** Properties of the orchestrator *)

(** The pipeline raises when the model cannot be reached: not every
    outcome of the capabilities ends in a [Response]. *)
Lemma pipeline_raises_on_generation_failure :
  process_natural_language_query sample_pandas unreachable_model "sql"
    "How many patients are there?" [patients] (constant_db (dataframe patients)) []
  = (Raise (Exception "Failed to generate SQL query: model unreachable"),
     [ModelCall (sql_prompt "How many patients are there?"
                   (build_data_context sample_pandas [patients]) "count")]).
Proof. reflexivity. Qed.

(** C1, as the code has it.  A failure of the model during synthesis and
    a rejection by the sanitizer leave the pipeline as an exception
    "Failed to generate SQL query: ..." after one model call and no call to
    the store; once the SQL is sanitized the pipeline returns a [Response]:
    a failure of the store is turned into the error-fallback [Response],
    and a narrating model call that fails gives the response whose
    narrative is the templated summary. *)
Theorem pipeline_outcomes (cell : Type) (pd : Pandas cell)
    (model : trace -> string -> result string) (fence_tag query : string)
    (processed_data : list (Dataset cell))
    (db_manager : trace -> string -> result (option (DataFrame cell))) (tr : trace) :
  let prompt :=
    sql_prompt query (build_data_context pd processed_data) (classify_query query) in
  let tr1 := (tr ++ [ModelCall prompt])%list in
  let run :=
    process_natural_language_query pd model fence_tag query processed_data db_manager tr in
  match model tr prompt with
  | Raise e =>
      run = (Raise (Exception ("Failed to generate SQL query: " ++ str_exn e)), tr1)
  | Ok text =>
      match clean_sql_query fence_tag (strip text) with
      | Raise e =>
          run = (Raise (Exception ("Failed to generate SQL query: " ++ str_exn e)), tr1)
      | Ok sql =>
          let tr2 := (tr1 ++ [DbCall sql])%list in
          (exists r tr', run = (Ok r, tr')) /\
          (forall e, db_manager tr1 sql = Raise e ->
                     run = (Ok (handle_query_error pd query (str_exn e) processed_data),
                            tr2)) /\
          (forall df e,
              db_manager tr1 sql = Ok (Some df) ->
              let narration_prompt :=
                response_prompt pd query df (classify_query query) in
              snd run = (tr2 ++ [ModelCall narration_prompt])%list ->
              model tr2 narration_prompt = Raise e ->
              exists r,
                fst run = Ok r /\
                response r
                = "Based on your query, I found " ++ str_nat (len df)
                  ++ " records. Here's what the data shows:" ++ nl ++ nl
                  ++ get_simple_summary pd df /\
                data r = Some df /\
                type r = classify_query query /\
                sql_query r = Some sql)
      end
  end.
Proof.
  cbv zeta. rewrite process_run. cbv zeta.
  destruct (model tr _) as [text|e]; [|reflexivity].
  destruct (clean_sql_query fence_tag (strip text)) as [sql|e]; [|reflexivity].
  destruct (db_manager _ sql) as [results|e].
  - split; [|split; [discriminate|]].
    + destruct (generate_response _ _ _ _ _ _ _) as [[text'|e] tr3]; eauto.
    + intros df e Hdb. inversion Hdb; subst results. clear Hdb.
      rewrite generate_response_run.
      destruct (len df =? 0)%nat.
      * cbn [snd]. intros H. exfalso.
        apply (f_equal (@length event)) in H. rewrite !List.length_app in H.
        cbn [length] in H. lia.
      * cbv zeta. intros _ Hm. rewrite Hm. cbn [fst].
        eexists. split; [reflexivity|]. repeat split.
  - split; [eauto|]. split; [|discriminate].
    intros e' E. now inversion E.
Qed.

Lemma pipeline_outcomes_witness :
  exists r,
    fst (process_natural_language_query sample_pandas
           (fun tr _ => match tr with
                        | [] => Ok "SELECT age FROM patients"
                        | _ => Raise (Exception "model unreachable")
                        end)
           "sql" "What is the average age?" [patients] (constant_db two_ages) [])
    = Ok r /\
    response r
    = "Based on your query, I found " ++ str_nat (len two_ages)
      ++ " records. Here's what the data shows:" ++ nl ++ nl
      ++ get_simple_summary sample_pandas two_ages /\
    data r = Some two_ages /\
    type r = classify_query "What is the average age?" /\
    sql_query r = Some "SELECT age FROM patients".
Proof.
  exact (proj2 (proj2
           (pipeline_outcomes nat sample_pandas
              (fun tr _ => match tr with
                           | [] => Ok "SELECT age FROM patients"
                           | _ => Raise (Exception "model unreachable")
                           end)
              "sql" "What is the average age?" [patients] (constant_db two_ages) []))
           two_ages (Exception "model unreachable") eq_refl eq_refl eq_refl).
Defined.

(** With the candidate "DELETE FROM patients" the pipeline produces no
    [Response] at all: the rejection leaves it as an exception. *)
Lemma delete_candidate_yields_no_response :
  fst (process_natural_language_query sample_pandas (constant_model "DELETE FROM patients")
         "sql" "Remove everything" [patients] (constant_db (dataframe patients)) [])
  = Raise (Exception
      "Failed to generate SQL query: Dangerous SQL operation detected: DELETE").
Proof. reflexivity. Qed.

(** C2, as the code has it.  When the generated SQL candidate is
    "DELETE FROM patients" the sanitizer raises the error that names DELETE,
    and the pipeline raises "Failed to generate SQL query: Dangerous SQL
    operation detected: DELETE" to its caller; the store is never called. *)
Theorem delete_candidate_rejected (cell : Type) (pd : Pandas cell)
    (model : trace -> string -> result string) (fence_tag query text : string)
    (processed_data : list (Dataset cell))
    (db_manager : trace -> string -> result (option (DataFrame cell))) (tr : trace) :
  let prompt :=
    sql_prompt query (build_data_context pd processed_data) (classify_query query) in
  model tr prompt = Ok text ->
  strip text = "DELETE FROM patients" ->
  clean_sql_query fence_tag "DELETE FROM patients"
  = Raise (ValueError "Dangerous SQL operation detected: DELETE") /\
  process_natural_language_query pd model fence_tag query processed_data db_manager tr
  = (Raise (Exception
       "Failed to generate SQL query: Dangerous SQL operation detected: DELETE"),
     (tr ++ [ModelCall prompt])%list) /\
  db_calls (snd (process_natural_language_query pd model fence_tag query processed_data
                   db_manager tr))
  = db_calls tr.
Proof.
  cbv zeta. intros Hm Hs.
  assert (Hc : clean_sql_query fence_tag "DELETE FROM patients"
               = Raise (ValueError "Dangerous SQL operation detected: DELETE")).
  { unfold clean_sql_query. rewrite strip_artifacts_plain by reflexivity. reflexivity. }
  split; [exact Hc|].
  rewrite process_run. cbv zeta. rewrite Hm, Hs, Hc. split; [reflexivity|].
  simpl. unfold db_calls. rewrite flat_map_app. simpl. apply app_nil_r.
Qed.

Lemma delete_candidate_rejected_witness :
  process_natural_language_query sample_pandas (constant_model "  DELETE FROM patients ")
    "sql" "Remove everything" [patients] (constant_db (dataframe patients)) []
  = (Raise (Exception
       "Failed to generate SQL query: Dangerous SQL operation detected: DELETE"),
     [ModelCall (sql_prompt "Remove everything"
                   (build_data_context sample_pandas [patients]) "general")]).
Proof.
  exact (proj1 (proj2 (delete_candidate_rejected nat sample_pandas
                         (constant_model "  DELETE FROM patients ") "sql"
                         "Remove everything" "  DELETE FROM patients " [patients]
                         (constant_db (dataframe patients)) [] eq_refl eq_refl))).
Defined.

(** ** Properties of the narrative synthesizer *)

(** On a result with zero rows the narrative is not the text
    "No data found for this query". *)
Lemma empty_result_message_differs :
  fst (generate_response sample_pandas unreachable_model "How many patients are there?"
         (Some empty_result) "count" "SELECT COUNT(*) FROM patients WHERE 1 = 0" [])
  <> Ok "No data found for this query".
Proof. vm_compute. discriminate. Qed.

(** C3, as the code has it.  On a result with zero rows [generate_response]
    returns the fixed message "I couldn't find any data that matches your
    query. Please try rephrasing your question or check if the data exists."
    whatever the question, the intent, the SQL text and the model, and it
    makes no call to the model. *)
Theorem generate_response_empty (cell : Type) (pd : Pandas cell)
    (model : trace -> string -> result string)
    (original_query query_type sql : string) (df : DataFrame cell) (tr : trace) :
  len df = 0 ->
  generate_response pd model original_query (Some df) query_type sql tr
  = (Ok "I couldn't find any data that matches your query. Please try rephrasing your question or check if the data exists.",
     tr) /\
  model_calls (snd (generate_response pd model original_query (Some df) query_type sql tr))
  = model_calls tr.
Proof.
  intros E. rewrite generate_response_run, E. simpl. split; reflexivity.
Qed.

Lemma generate_response_empty_witness :
  generate_response sample_pandas unreachable_model "How many patients are there?"
    (Some empty_result) "count" "SELECT COUNT(*) FROM patients WHERE 1 = 0" []
  = (Ok "I couldn't find any data that matches your query. Please try rephrasing your question or check if the data exists.",
     []).
Proof.
  exact (proj1 (generate_response_empty nat sample_pandas unreachable_model
                  "How many patients are there?" "count"
                  "SELECT COUNT(*) FROM patients WHERE 1 = 0" empty_result [] eq_refl)).
Defined.

(** A result with exactly one numeric column next to a text column gets no
    mean in the fallback summary. *)
Lemma one_numeric_column_of_two_has_no_mean :
  length (filter (fun c => is_number (snd c)) (columns ages_and_names)) = 1 /\
  get_simple_summary sample_pandas ages_and_names = "Found 2 records".
Proof. split; reflexivity. Qed.

(** C8, as the code has it.  When the model call of [generate_response]
    fails on a result that is not empty, the narrative is "Based on your
    query, I found n records. Here's what the data shows:", a blank line and
    the simple summary; the summary is "The answer is: " and the value for a
    result of one row and one column, and otherwise "Found n records",
    followed by " with an average c of m" exactly when the result has one
    column only, named c, whose dtype is int64 or float64. *)
Theorem fallback_summary_template (cell : Type) (pd : Pandas cell)
    (model : trace -> string -> result string)
    (original_query query_type sql : string) (df : DataFrame cell) (tr : trace) (e : exn) :
  len df <> 0 ->
  model tr (response_prompt pd original_query df query_type) = Raise e ->
  fst (generate_response pd model original_query (Some df) query_type sql tr)
  = Ok ("Based on your query, I found " ++ str_nat (len df)
        ++ " records. Here's what the data shows:" ++ nl ++ nl
        ++ get_simple_summary pd df) /\
  (len df = 1 ->
   forall c d v, columns df = [(c, d)] -> iloc df 0 0 = Some v ->
     get_simple_summary pd df = "The answer is: " ++ str_cell pd v) /\
  (~ (len df = 1 /\ length (columns df) = 1) ->
   (forall c d, columns df = [(c, d)] -> d = int64 \/ d = float64 ->
      get_simple_summary pd df
      = "Found " ++ str_nat (len df) ++ " records with an average " ++ c ++ " of "
        ++ mean_2f pd (series df 0)) /\
   ((forall c d, columns df = [(c, d)] -> d <> int64 /\ d <> float64) ->
      get_simple_summary pd df = "Found " ++ str_nat (len df) ++ " records")).
Proof.
  intros Hne Hm. split; [|split].
  - rewrite generate_response_run.
    destruct (Nat.eqb_spec (len df) 0) as [E|_]; [contradiction|].
    cbv zeta. now rewrite Hm.
  - intros H1 c d v Hc Hv. unfold get_simple_summary.
    now rewrite H1, Hc, Hv.
  - intros Hshape.
    assert (Hif : ((len df =? 1)%nat && (length (columns df) =? 1)%nat) = false).
    { apply andb_false_iff.
      destruct (Nat.eqb_spec (len df) 1); [|now left].
      destruct (Nat.eqb_spec (length (columns df)) 1); [|now right].
      exfalso. now apply Hshape. }
    unfold get_simple_summary. rewrite Hif. split.
    + intros c d Hc [->| ->]; rewrite Hc; simpl;
        now rewrite !append_assoc.
    + intros Hd. destruct (columns df) as [|[c d] [|c2 cs]]; try reflexivity.
      destruct (Hd c d eq_refl) as [H1 H2].
      destruct d; try reflexivity; contradiction.
Qed.

Lemma fallback_summary_template_witness :
  fst (generate_response sample_pandas unreachable_model "What is the average age?"
         (Some two_ages) "average" "SELECT age FROM patients" [])
  = Ok ("Based on your query, I found 2 records. Here's what the data shows:" ++ nl ++ nl
        ++ "Found 2 records with an average age of 40.00").
Proof.
  pose proof (fallback_summary_template nat sample_pandas unreachable_model
                "What is the average age?" "average" "SELECT age FROM patients"
                two_ages [] (Exception "model unreachable")
                ltac:(discriminate) eq_refl) as (H & _ & H3).
  destruct (H3 ltac:(intros [E _]; discriminate E)) as (Hmean & _).
  rewrite H, (Hmean "age" int64 eq_refl (or_introl eq_refl)). reflexivity.
Defined.

(** ** The fields of the response *)

Section ResponseFields.

Variable cell : Type.
Variable pd : Pandas cell.

Lemma handle_query_error_nonempty (query error : string)
    (processed_data : list (Dataset cell)) :
  response (handle_query_error pd query error processed_data) <> "".
Proof. destruct processed_data; simpl; discriminate. Qed.

Lemma fallback_response_nonempty (df : DataFrame cell) :
  fallback_response pd df <> "".
Proof. unfold fallback_response. simpl. discriminate. Qed.

Lemma generate_response_returns (model : trace -> string -> result string)
    (query : string) (results : option (DataFrame cell)) (query_type sql : string)
    (tr : trace) :
  exists text tr', generate_response pd model query results query_type sql tr
                   = (Ok text, tr').
Proof.
  rewrite generate_response_run. destruct results as [df|]; [|eauto].
  destruct (len df =? 0)%nat; eauto.
Qed.

End ResponseFields.

(** When the store rejects the query the response is tagged "error",
    which is not an intent. *)
Lemma error_fallback_tag_is_not_an_intent :
  exists r tr',
    process_natural_language_query sample_pandas
      (constant_model "SELECT COUNT(*) FROM patients") "sql"
      "How many patients are there?" [patients] failing_db []
    = (Ok r, tr') /\
    type r = "error" /\ ~ In (type r) intents.
Proof.
  eexists. eexists. split; [reflexivity|]. split; [reflexivity|].
  simpl. intuition discriminate.
Qed.

(** C6, as the code has it.  Every [Response] the pipeline returns carries
    one tag.  It is either the intent given by [classify_query], a member of
    the closed enumeration, carried with the SQL and the result of a store
    that answered; or the literal "error", outside the enumeration, carried
    with no SQL and no data.  It is "error" whenever the store failed; it
    is the intent whenever the store answered with no frame or an empty
    one, and whenever the narrating model call was made. *)
Theorem response_tag (cell : Type) (pd : Pandas cell)
    (model : trace -> string -> result string) (fence_tag query : string)
    (processed_data : list (Dataset cell))
    (db_manager : trace -> string -> result (option (DataFrame cell)))
    (tr tr' : trace) (r : Response cell) :
  let prompt :=
    sql_prompt query (build_data_context pd processed_data) (classify_query query) in
  let tr1 := (tr ++ [ModelCall prompt])%list in
  process_natural_language_query pd model fence_tag query processed_data db_manager tr
  = (Ok r, tr') ->
  exists text sql,
    model tr prompt = Ok text /\
    clean_sql_query fence_tag (strip text) = Ok sql /\
    ((type r = classify_query query /\ In (type r) intents /\
      sql_query r = Some sql /\
      exists results, db_manager tr1 sql = Ok results /\ data r = results) \/
     (type r = "error" /\ ~ In (type r) intents /\
      sql_query r = None /\ data r = None)) /\
    (forall e, db_manager tr1 sql = Raise e -> type r = "error") /\
    (forall results,
        db_manager tr1 sql = Ok results ->
        results = None \/ (exists df, results = Some df /\ len df = 0) ->
        type r = classify_query query) /\
    (forall df,
        db_manager tr1 sql = Ok (Some df) ->
        tr' = ((tr1 ++ [DbCall sql])
                 ++ [ModelCall (response_prompt pd query df (classify_query query))])%list ->
        type r = classify_query query).
Proof.
  cbv zeta. rewrite process_run. cbv zeta.
  destruct (model tr _) as [text|e] eqn:Hm; [|discriminate].
  destruct (clean_sql_query fence_tag (strip text)) as [sql|e] eqn:Hc; [|discriminate].
  intros H. exists text, sql. split; [reflexivity|]. split; [exact Hc|].
  destruct (db_manager _ sql) as [results|e] eqn:Hdb.
  - destruct (generate_response_returns cell pd model query results
                (classify_query query) sql
                ((tr ++ [ModelCall (sql_prompt query (build_data_context pd processed_data)
                                      (classify_query query))]) ++ [DbCall sql])%list)
      as (text' & tr3 & E).
    rewrite E in H. inversion H; subst. cbn [type sql_query data success_response].
    split; [|split; [discriminate|split; reflexivity]].
    left. split; [reflexivity|]. split; [apply classify_query_in_intents|].
    split; [reflexivity|]. now exists results.
  - inversion H; subst. cbn [type sql_query data handle_query_error].
    split; [|split; [reflexivity|split; discriminate]].
    right. split; [reflexivity|]. split; [|split; reflexivity].
    simpl. intuition discriminate.
Qed.

Lemma response_tag_witness :
  type (handle_query_error sample_pandas "How many patients are there?"
          "no such table: patients" [patients]) = "error".
Proof.
  destruct (response_tag nat sample_pandas (constant_model "SELECT COUNT(*) FROM patients")
              "sql" "How many patients are there?" [patients] failing_db [] _ _ eq_refl)
    as (text & sql & _ & _ & _ & Herr & _).
  exact (Herr (Exception "no such table: patients") eq_refl).
Defined.

(** When the model narrates with blanks the narrative is empty. *)
Lemma blank_narration_gives_empty_narrative :
  exists r tr',
    process_natural_language_query sample_pandas blank_narrator "sql"
      "List the ages" [patients] (constant_db two_ages) []
    = (Ok r, tr') /\
    response r = "".
Proof. eexists. eexists. split; reflexivity. Qed.

(** ** More facts about characters and strings *)

Ltac by_all_chars c :=
  destruct c as [b0 b1 b2 b3 b4 b5 b6 b7];
  destruct b0, b1, b2, b3, b4, b5, b6, b7; try reflexivity; try discriminate.

Section CharFacts.

Lemma word_not_space (c : ascii) : is_word c = true -> is_space c = false.
Proof. by_all_chars c. Qed.

Lemma is_word_upper_char (c : ascii) : is_word (upper_char c) = is_word c.
Proof. by_all_chars c. Qed.

Lemma is_word_lower_char (c : ascii) : is_word (lower_char c) = is_word c.
Proof. by_all_chars c. Qed.

Lemma is_letter_upper_char (c : ascii) : is_letter (upper_char c) = is_letter c.
Proof. by_all_chars c. Qed.

Lemma is_letter_lower_char (c : ascii) : is_letter (lower_char c) = is_letter c.
Proof. by_all_chars c. Qed.

Lemma upper_char_idem (c : ascii) : upper_char (upper_char c) = upper_char c.
Proof. by_all_chars c. Qed.

Lemma lower_char_idem (c : ascii) : lower_char (lower_char c) = lower_char c.
Proof. by_all_chars c. Qed.

Lemma lower_upper_char (c : ascii) : lower_char (upper_char c) = lower_char c.
Proof. by_all_chars c. Qed.

Lemma space_not_backquote (c : ascii) : is_space c = true -> Ascii.eqb "`" c = false.
Proof. by_all_chars c. Qed.

Lemma space_not_semicolon (c : ascii) : is_space c = true -> Ascii.eqb c ";" = false.
Proof. by_all_chars c. Qed.

End CharFacts.

Section MoreStringFacts.

Lemma all_chars_app (p : ascii -> bool) (a b : string) :
  all_chars p (a ++ b) = all_chars p a && all_chars p b.
Proof. induction a as [|c a IH]; simpl; [reflexivity|]. now rewrite IH, andb_assoc. Qed.

Lemma all_chars_impl (p q : ascii -> bool) (s : string) :
  (forall c, p c = true -> q c = true) -> all_chars p s = true -> all_chars q s = true.
Proof.
  intros H. induction s as [|c s IH]; simpl; [reflexivity|].
  rewrite !andb_true_iff. intros [Hc Hs]. split; [now apply H|now apply IH].
Qed.

Lemma lstrip_if_all (p : ascii -> bool) (s : string) :
  all_chars p s = true -> lstrip_if p s = "".
Proof.
  induction s as [|c s IH]; simpl; [reflexivity|].
  rewrite andb_true_iff. intros [Hc Hs]. now rewrite Hc, IH.
Qed.

Lemma rstrip_if_all (p : ascii -> bool) (s : string) :
  all_chars p s = true -> rstrip_if p s = "".
Proof.
  induction s as [|c s IH]; simpl; [reflexivity|].
  rewrite andb_true_iff. intros [Hc Hs]. now rewrite IH, Hc.
Qed.

Lemma rstrip_if_none (p : ascii -> bool) (s : string) :
  all_chars (fun c => negb (p c)) s = true -> rstrip_if p s = s.
Proof.
  induction s as [|c s IH]; simpl; [reflexivity|].
  rewrite andb_true_iff, negb_true_iff. intros [Hc Hs].
  rewrite (IH Hs), Hc. now destruct s.
Qed.

Lemma lstrip_if_none (p : ascii -> bool) (s : string) :
  all_chars (fun c => negb (p c)) s = true -> lstrip_if p s = s.
Proof.
  destruct s as [|c s]; simpl; [reflexivity|].
  rewrite andb_true_iff, negb_true_iff. intros [Hc _]. now rewrite Hc.
Qed.

(** Stripping keeps a segment of the text. *)
Lemma lstrip_if_suffix (p : ascii -> bool) (s : string) :
  exists a, s = a ++ lstrip_if p s.
Proof.
  induction s as [|c s (a & IH)]; simpl; [now exists ""|].
  destruct (p c).
  - exists (String c a). simpl. now rewrite <- IH.
  - now exists "".
Qed.

Lemma rstrip_if_prefix (p : ascii -> bool) (s : string) :
  exists b, s = rstrip_if p s ++ b.
Proof.
  induction s as [|c s (b & IH)]; simpl; [now exists ""|].
  destruct (rstrip_if p s) as [|d r] eqn:E.
  - destruct (p c).
    + exists (String c s). reflexivity.
    + exists s. reflexivity.
  - exists b. simpl. now rewrite IH.
Qed.

Lemma lstrip_if_nonempty (p : ascii -> bool) (s : string) :
  lstrip_if p s = "" -> all_chars p s = true.
Proof.
  induction s as [|c s IH]; simpl; [reflexivity|].
  destruct (p c); [assumption|discriminate].
Qed.

Lemma rstrip_if_nonempty (p : ascii -> bool) (s : string) :
  rstrip_if p s = "" -> all_chars p s = true.
Proof.
  induction s as [|c s IH]; simpl; [reflexivity|].
  destruct (rstrip_if p s); [|discriminate].
  destruct (p c); [intros _; now apply IH|discriminate].
Qed.

Lemma strip_blank_iff (s : string) :
  strip s = "" <-> all_chars is_space s = true.
Proof.
  unfold strip. split.
  - intros H. apply rstrip_if_nonempty in H.
    induction s as [|c s IH]; simpl in *; [reflexivity|].
    destruct (is_space c) eqn:Hc; simpl.
    + now apply IH.
    + simpl in H. now rewrite Hc in H.
  - intros H. now rewrite lstrip_if_all.
Qed.

Lemma occurs_segment (w a s b : string) : occurs w s -> occurs w (a ++ s ++ b).
Proof.
  intros (pre & post & ->). exists (a ++ pre), (post ++ b).
  now rewrite !append_assoc.
Qed.

Lemma occurs_strip (w chars s : string) :
  occurs w (upper (strip (rstrip_chars chars s))) -> occurs w (upper s).
Proof.
  unfold strip, rstrip_chars. intros H.
  destruct (rstrip_if_prefix (fun c => mem_char c chars) s) as (b1 & E1).
  destruct (lstrip_if_suffix is_space (rstrip_if (fun c => mem_char c chars) s)) as (a2 & E2).
  destruct (rstrip_if_prefix is_space
              (lstrip_if is_space (rstrip_if (fun c => mem_char c chars) s))) as (b2 & E3).
  rewrite E1, E2, E3 at 1.
  unfold upper in *. rewrite !map_chars_app.
  rewrite append_assoc.
  apply occurs_segment with (a := map_chars upper_char a2)
                            (b := map_chars upper_char b2 ++ map_chars upper_char b1) in H.
  now rewrite <- !append_assoc in *.
Qed.

End MoreStringFacts.

(** ** The narrative, path by path *)

(** C9, as the code has it.  For a [Response] returned by the pipeline on
    the sanitized SQL: when the store failed the narrative is the
    error-fallback text, when the store gave no frame or an empty one it is
    the fixed no-data message, and when the narrating model call was made
    and failed it is the templated summary; these three are never empty.
    When the narrating call was made and succeeded the narrative is the
    model's text stripped, which is non-empty exactly when that text is not
    blank.  So the narrative is empty only on the success path, when the
    model answered the narration prompt with blanks. *)
Theorem narrative_nonempty_unless_blank_narration (cell : Type) (pd : Pandas cell)
    (model : trace -> string -> result string) (fence_tag query : string)
    (processed_data : list (Dataset cell))
    (db_manager : trace -> string -> result (option (DataFrame cell)))
    (tr tr' : trace) (r : Response cell) (text sql : string) :
  let prompt :=
    sql_prompt query (build_data_context pd processed_data) (classify_query query) in
  let tr1 := (tr ++ [ModelCall prompt])%list in
  let tr2 := (tr1 ++ [DbCall sql])%list in
  let narration_prompt := fun df => response_prompt pd query df (classify_query query) in
  model tr prompt = Ok text ->
  clean_sql_query fence_tag (strip text) = Ok sql ->
  process_natural_language_query pd model fence_tag query processed_data db_manager tr
  = (Ok r, tr') ->
  (forall e,
      db_manager tr1 sql = Raise e ->
      response r = response (handle_query_error pd query (str_exn e) processed_data) /\
      response r <> "") /\
  (forall results,
      db_manager tr1 sql = Ok results ->
      results = None \/ (exists df, results = Some df /\ len df = 0) ->
      response r
      = "I couldn't find any data that matches your query. Please try rephrasing your question or check if the data exists." /\
      response r <> "") /\
  (forall df,
      db_manager tr1 sql = Ok (Some df) ->
      tr' = (tr2 ++ [ModelCall (narration_prompt df)])%list ->
      (forall e,
          model tr2 (narration_prompt df) = Raise e ->
          response r
          = "Based on your query, I found " ++ str_nat (len df)
            ++ " records. Here's what the data shows:" ++ nl ++ nl
            ++ get_simple_summary pd df /\
          response r <> "") /\
      (forall narration,
          model tr2 (narration_prompt df) = Ok narration ->
          response r = strip narration /\
          (response r <> "" <-> all_chars is_space narration = false))) /\
  (response r = "" ->
   exists df narration,
     db_manager tr1 sql = Ok (Some df) /\
     tr' = (tr2 ++ [ModelCall (narration_prompt df)])%list /\
     model tr2 (narration_prompt df) = Ok narration /\
     all_chars is_space narration = true).
Proof.
  cbv zeta. intros Hm Hc. rewrite process_run. cbv zeta. rewrite Hm, Hc.
  assert (Hblank : forall narration,
             strip narration <> "" <-> all_chars is_space narration = false).
  { intros narration. rewrite <- not_true_iff_false. apply not_iff_compat.
    apply strip_blank_iff. }
  destruct (db_manager _ sql) as [results|e] eqn:Hdb.
  - rewrite generate_response_run. destruct results as [df|].
    + destruct (Nat.eqb_spec (len df) 0) as [E|E].
      * intros H. inversion H; subst. cbn [response success_response].
        split; [discriminate|]. split; [split; [reflexivity|discriminate]|].
        split; [|discriminate].
        intros df' Hdf Htr. exfalso. apply (f_equal (@length event)) in Htr.
        rewrite !List.length_app in Htr. cbn [length] in Htr. lia.
      * cbv zeta.
        destruct (model _ (response_prompt pd query df (classify_query query)))
          as [narration|e'] eqn:Hn; intros H; inversion H; subst;
          cbn [response success_response].
        -- split; [discriminate|]. split.
           { intros results Hr [Hnone|(df' & Hdf & Hlen)]; [subst; discriminate|].
             subst. inversion Hr; subst. contradiction. }
           split.
           { intros df' Hdf _. inversion Hdf; subst df'. split.
             - intros e He. rewrite Hn in He. discriminate.
             - intros narration' Hn'. rewrite Hn in Hn'. inversion Hn'; subst.
               split; [reflexivity|apply Hblank]. }
           intros Hempty. exists df, narration.
           split; [first [reflexivity|exact Hdb]|]. split; [reflexivity|].
           split; [first [reflexivity|exact Hn]|].
           destruct (all_chars is_space narration) eqn:B; [reflexivity|].
           apply Hblank in B. contradiction.
        -- split; [discriminate|]. split.
           { intros results Hr [Hnone|(df' & Hdf & Hlen)]; [subst; discriminate|].
             subst. inversion Hr; subst. contradiction. }
           split.
           { intros df' Hdf _. inversion Hdf; subst df'. split.
             - intros e He. split; [reflexivity|apply fallback_response_nonempty].
             - intros narration' Hn'. rewrite Hn in Hn'. discriminate. }
           intros Hempty. exfalso. revert Hempty. apply fallback_response_nonempty.
    + intros H. inversion H; subst. cbn [response success_response].
      split; [discriminate|]. split; [split; [reflexivity|discriminate]|].
      split; [discriminate|discriminate].
  - intros H. inversion H; subst.
    split.
    { intros e' He. inversion He; subst. split; [reflexivity|].
      apply handle_query_error_nonempty. }
    split; [discriminate|]. split; [discriminate|].
    intros Hempty. exfalso. revert Hempty. apply handle_query_error_nonempty.
Qed.

Lemma narrative_nonempty_unless_blank_narration_witness :
  exists df narration,
    constant_db two_ages
      ([] ++ [ModelCall (sql_prompt "List the ages"
                           (build_data_context sample_pandas [patients])
                           (classify_query "List the ages"))])%list
      "SELECT age FROM patients"
    = Ok (Some df) /\
    blank_narrator
      (([] ++ [ModelCall (sql_prompt "List the ages"
                            (build_data_context sample_pandas [patients])
                            (classify_query "List the ages"))])
         ++ [DbCall "SELECT age FROM patients"])%list
      (response_prompt sample_pandas "List the ages" df (classify_query "List the ages"))
    = Ok narration /\
    all_chars is_space narration = true.
Proof.
  destruct (proj2 (proj2 (proj2
              (narrative_nonempty_unless_blank_narration nat sample_pandas blank_narrator
                 "sql" "List the ages" [patients] (constant_db two_ages) [] _ _
                 "SELECT age FROM patients" "SELECT age FROM patients"
                 eq_refl eq_refl eq_refl))) eq_refl)
    as (df & narration & Hdb & _ & Hn & Hb).
  exists df, narration. split; [exact Hdb|]. split; [exact Hn|exact Hb].
Defined.

(** ** Properties of the query validator *)

Section Validator.

Lemma first_restricted_none (query_upper : string) : forall keywords,
  first_restricted keywords query_upper = None <->
  (forall keyword, In keyword keywords -> contains keyword query_upper = false).
Proof.
  induction keywords as [|k ks IH]; simpl.
  - split; [intros _ ? []|reflexivity].
  - destruct (contains k query_upper) eqn:E.
    + split; [discriminate|]. intros H. rewrite (H k) in E; [discriminate|now left].
    + rewrite IH. split.
      * intros H kw [<-|Hin]; [assumption|now apply H].
      * intros H kw Hin. apply H. now right.
Qed.

Lemma first_restricted_some (query_upper : string) : forall keywords keyword,
  first_restricted keywords query_upper = Some keyword ->
  In keyword keywords /\ contains keyword query_upper = true.
Proof.
  induction keywords as [|k ks IH]; simpl; intros kw H; [discriminate|].
  destruct (contains k query_upper) eqn:E.
  - inversion H; subst. split; [now left|assumption].
  - destruct (IH kw H). split; [now right|assumption].
Qed.

Lemma blank_test (query : string) :
  (String.length query =? 0)%nat || (String.length (strip query) =? 0)%nat
  = all_chars is_space query.
Proof.
  destruct (all_chars is_space query) eqn:E.
  - apply strip_blank_iff in E. rewrite E. apply orb_true_r.
  - apply orb_false_iff. split.
    + destruct query; [discriminate|reflexivity].
    + destruct (strip query) eqn:S; [|reflexivity].
      apply strip_blank_iff in S. congruence.
Qed.

Lemma first_dangerous_none (query_upper : string) : forall keywords,
  (forall keyword, In keyword keywords -> contains keyword query_upper = false) ->
  first_dangerous keywords query_upper = None.
Proof.
  induction keywords as [|k ks IH]; intros H; cbn [first_dangerous]; [reflexivity|].
  rewrite (H k) by now left. simpl. apply IH. intros kw Hin. apply H. now right.
Qed.

Lemma first_dangerous_select (query_upper : string) :
  startswith query_upper "SELECT" = true ->
  forall keywords, first_dangerous keywords query_upper = None.
Proof.
  intros Hs. induction keywords as [|k ks IH]; cbn [first_dangerous]; [reflexivity|].
  now rewrite Hs, andb_false_r.
Qed.

Lemma first_dangerous_some (query_upper : string) : forall keywords keyword,
  first_dangerous keywords query_upper = Some keyword ->
  In keyword keywords /\ contains keyword query_upper = true /\
  startswith query_upper "SELECT" = false.
Proof.
  induction keywords as [|k ks IH]; cbn [first_dangerous]; intros kw H; [discriminate|].
  destruct (contains k query_upper && negb (startswith query_upper "SELECT")) eqn:E.
  - inversion H; subst. apply andb_true_iff in E. destruct E as [E1 E2].
    apply negb_true_iff in E2. repeat split; try assumption. now left.
  - destruct (IH kw H) as (Hin & Hc & Hs). repeat split; try assumption. now right.
Qed.

Lemma first_dangerous_none_inv (query_upper : string) : forall keywords,
  first_dangerous keywords query_upper = None ->
  startswith query_upper "SELECT" = true \/
  (forall keyword, In keyword keywords -> contains keyword query_upper = false).
Proof.
  intros keywords H.
  destruct (startswith query_upper "SELECT") eqn:Hs; [now left|right].
  induction keywords as [|k ks IH]; [intros ? []|].
  cbn [first_dangerous] in H. rewrite Hs in H. simpl in H. rewrite andb_true_r in H.
  destruct (contains k query_upper) eqn:E; [discriminate|].
  intros kw [<-|Hin]; [assumption|now apply IH].
Qed.

End Validator.

(** X1.  [validate_query] answers "Query cannot be empty" exactly for the
    texts made of whitespace only (the empty text included), whatever
    their length. *)
Theorem validate_query_blank_iff (query : string) :
  validate_query query = (false, "Query cannot be empty") <->
  all_chars is_space query = true.
Proof.
  unfold validate_query. rewrite blank_test.
  destruct (all_chars is_space query); split; try reflexivity; try discriminate.
  destruct (2000 <? String.length query)%nat; [discriminate|].
  cbv zeta. destruct (first_restricted _ _); simpl; discriminate.
Qed.

Lemma validate_query_accepted (query : string) :
  (fst (validate_query query) = true <->
   all_chars is_space query = false /\
   String.length query <= 2000 /\
   (forall keyword, In keyword restricted_keywords ->
                    contains keyword (upper query) = false)) /\
  (fst (validate_query query) = true -> validate_query query = (true, "Valid query")).
Proof.
  unfold validate_query. rewrite blank_test.
  destruct (all_chars is_space query).
  { split; [split; [discriminate|intros [H _]; discriminate]|discriminate]. }
  destruct (Nat.ltb_spec 2000 (String.length query)) as [L|L].
  { split; [split; [discriminate|intros (_ & H & _); lia]|discriminate]. }
  cbv zeta.
  destruct (first_restricted restricted_keywords (upper query)) as [kw|] eqn:E.
  - split; [split; [discriminate|]|discriminate].
    intros (_ & _ & H). apply first_restricted_none in H. congruence.
  - split; [split; [intros _|reflexivity]|reflexivity].
    split; [reflexivity|]. split; [lia|]. now apply first_restricted_none.
Qed.

(** X2.  [validate_query] accepts a text exactly when it has a character
    that is not whitespace, has at most 2000 characters, and its uppercase
    form contains none of DROP, DELETE, UPDATE, INSERT, CREATE, ALTER and
    TRUNCATE as a substring; the answer is then "Valid query". *)
Theorem validate_query_accepts_iff (query : string) :
  (fst (validate_query query) = true <->
   all_chars is_space query = false /\
   String.length query <= 2000 /\
   (forall keyword, In keyword restricted_keywords ->
                    contains keyword (upper query) = false)) /\
  (fst (validate_query query) = true -> validate_query query = (true, "Valid query")).
Proof. exact (validate_query_accepted query). Qed.

(** X3.  [validate_query] looks for the keywords as substrings of the
    uppercased text: a question in which any word embeds one of them, in
    any case, is rejected wherever that word stands. *)
Theorem validate_query_rejects_embedded_keyword (before word after keyword : string) :
  In keyword restricted_keywords ->
  contains keyword (upper word) = true ->
  fst (validate_query (before ++ word ++ after)) = false.
Proof.
  intros Hin Hw.
  assert (Hc : contains keyword (upper (before ++ word ++ after)) = true).
  { apply occurs_contains. unfold upper. rewrite !map_chars_app.
    apply occurs_segment. apply contains_occurs. exact Hw. }
  destruct (fst (validate_query (before ++ word ++ after))) eqn:E; [|reflexivity].
  apply (proj1 (validate_query_accepted _)) in E.
  destruct E as (_ & _ & H). rewrite (H keyword Hin) in Hc. discriminate.
Qed.

Lemma validate_query_rejects_embedded_keyword_witness :
  fst (validate_query "Which records were updated last week?") = false.
Proof.
  apply (validate_query_rejects_embedded_keyword "Which records were " "updated"
           " last week?" "UPDATE"); [simpl; tauto|reflexivity].
Defined.

(** X4.  The validator is stricter than the sanitizer: a text accepted by
    [validate_query] that has no backquote is accepted by [clean_sql_query]
    too, which returns it after [rstrip(';')] and then [strip()]; a
    semicolon that is followed by whitespace stays. *)
Theorem validated_text_passes_sanitizer (fence_tag query : string) :
  fst (validate_query query) = true ->
  mem_char "`" query = false ->
  clean_sql_query fence_tag query = Ok (strip (rstrip_chars ";" query)).
Proof.
  intros Hv Hq. apply (proj1 (validate_query_accepted _)) in Hv.
  destruct Hv as (_ & _ & Hk).
  unfold clean_sql_query. rewrite (strip_artifacts_plain fence_tag query Hq).
  rewrite first_dangerous_none; [reflexivity|].
  intros kw Hin.
  destruct (contains kw (upper (strip (rstrip_chars ";" query)))) eqn:E; [|reflexivity].
  apply contains_occurs, occurs_strip, occurs_contains in E.
  rewrite Hk in E; [discriminate|].
  unfold dangerous_keywords in Hin. unfold restricted_keywords. simpl in *. tauto.
Qed.

Lemma validated_text_passes_sanitizer_witness :
  clean_sql_query "sql" " SELECT name FROM patients; " = Ok "SELECT name FROM patients;" /\
  clean_sql_query "sql" " SELECT name FROM patients;" = Ok "SELECT name FROM patients".
Proof.
  split.
  - exact (validated_text_passes_sanitizer "sql" " SELECT name FROM patients; "
             eq_refl eq_refl).
  - exact (validated_text_passes_sanitizer "sql" " SELECT name FROM patients;"
             eq_refl eq_refl).
Defined.

(** ** More properties of the sanitizer *)

(** X5.  A text whose stripped form begins with SELECT, in any case, is
    accepted by [clean_sql_query] whatever keywords follow. *)
Theorem clean_sql_query_select_exempt (fence_tag raw : string) :
  startswith (upper (strip_artifacts fence_tag raw)) "SELECT" = true ->
  clean_sql_query fence_tag raw = Ok (strip_artifacts fence_tag raw).
Proof.
  intros H. unfold clean_sql_query. now rewrite first_dangerous_select.
Qed.

Lemma clean_sql_query_select_exempt_witness :
  clean_sql_query "sql" "select 1; DROP TABLE patients" = Ok "select 1; DROP TABLE patients".
Proof.
  apply (clean_sql_query_select_exempt "sql" "select 1; DROP TABLE patients"). reflexivity.
Defined.

(** X6.  What [clean_sql_query] returns is the stripped text, and it
    either begins with SELECT when uppercased or contains none of the six
    dangerous keywords; what it raises is a [ValueError] that names a
    dangerous keyword present in the uppercased stripped text, which does
    not begin with SELECT. *)
Theorem clean_sql_query_sound (fence_tag raw : string) :
  (forall sql, clean_sql_query fence_tag raw = Ok sql ->
     sql = strip_artifacts fence_tag raw /\
     (startswith (upper sql) "SELECT" = true \/
      forall keyword, In keyword dangerous_keywords ->
                      contains keyword (upper sql) = false)) /\
  (forall e, clean_sql_query fence_tag raw = Raise e ->
     exists keyword,
       In keyword dangerous_keywords /\
       e = ValueError ("Dangerous SQL operation detected: " ++ keyword) /\
       contains keyword (upper (strip_artifacts fence_tag raw)) = true /\
       startswith (upper (strip_artifacts fence_tag raw)) "SELECT" = false).
Proof.
  unfold clean_sql_query.
  destruct (first_dangerous dangerous_keywords (upper (strip_artifacts fence_tag raw)))
    as [kw|] eqn:E; split; try discriminate.
  - intros e H. inversion H; subst.
    destruct (first_dangerous_some _ _ _ E) as (Hin & Hc & Hs).
    exists kw. now repeat split.
  - intros sql H. inversion H; subst. split; [reflexivity|].
    now apply first_dangerous_none_inv.
Qed.

Lemma clean_sql_query_sound_witness :
  "SELECT 1" = strip_artifacts "sql" "```sql
SELECT 1
```" /\
  (startswith (upper "SELECT 1") "SELECT" = true \/
   forall keyword, In keyword dangerous_keywords -> contains keyword (upper "SELECT 1") = false).
Proof.
  exact (proj1 (clean_sql_query_sound "sql" "```sql
SELECT 1
```") "SELECT 1" eq_refl).
Defined.

(** X7.  A semicolon that is followed by whitespace is kept: the trailing
    semicolons are removed before the whitespace is.  For a text without
    backquotes, one semicolon and then whitespace at the end, the stripped
    text still ends with the semicolon. *)
Theorem semicolon_before_whitespace_is_kept (fence_tag body ws : string) :
  mem_char "`" body = false ->
  ws <> "" ->
  all_chars is_space ws = true ->
  strip_artifacts fence_tag (body ++ ";" ++ ws) = lstrip_if is_space body ++ ";".
Proof.
  intros Hb Hne Hws.
  assert (Hbq : forall u, all_chars is_space u = true -> mem_char "`" u = false).
  { induction u as [|c u IH]; cbn [all_chars mem_char]; [reflexivity|].
    rewrite andb_true_iff. intros [Hc Hu]. now rewrite (space_not_backquote c Hc), IH. }
  assert (Hq : mem_char "`" (body ++ ";" ++ ws) = false).
  { clear Hne. induction body as [|c body IH]; cbn [append mem_char] in *.
    - rewrite (Hbq ws Hws). reflexivity.
    - apply orb_false_iff in Hb. destruct Hb as [Hc Hb]. now rewrite Hc, IH. }
  rewrite (strip_artifacts_plain _ _ Hq). unfold rstrip_chars, strip.
  destruct ws as [|w ws]; [contradiction|]. clear Hne.
  assert (Hw : is_space w = true /\ all_chars is_space ws = true).
  { cbn [all_chars] in Hws. now apply andb_true_iff in Hws. }
  destruct Hw as [Hw Hws'].
  assert (Hnone : all_chars (fun c => negb (mem_char c ";")) ws = true).
  { apply all_chars_impl with (p := is_space); [|assumption].
    intros c Hc. cbn [mem_char]. now rewrite (space_not_semicolon c Hc). }
  assert (Hr : rstrip_if (fun c => mem_char c ";") (body ++ ";" ++ String w ws)
               = body ++ ";" ++ String w ws).
  { rewrite <- append_assoc.
    rewrite (rstrip_keeps (fun c => mem_char c ";") w ws).
    - now rewrite (rstrip_if_none _ ws Hnone).
    - cbn [mem_char]. now rewrite (space_not_semicolon w Hw). }
  rewrite Hr.
  assert (El : lstrip_if is_space (body ++ ";" ++ String w ws)
               = lstrip_if is_space body ++ ";" ++ String w ws).
  { clear. induction body as [|c body IH]; [reflexivity|].
    cbn [append lstrip_if]. destruct (is_space c); [exact IH|reflexivity]. }
  rewrite El.
  change (lstrip_if is_space body ++ ";" ++ String w ws)
    with (lstrip_if is_space body ++ String ";" (String w ws)).
  rewrite (rstrip_keeps is_space ";" (String w ws) eq_refl).
  now rewrite (rstrip_if_all is_space (String w ws) Hws).
Qed.

Lemma semicolon_before_whitespace_is_kept_witness :
  strip_artifacts "sql" ("SELECT COUNT(*) FROM patients" ++ ";" ++ nl)
  = "SELECT COUNT(*) FROM patients;".
Proof.
  apply (semicolon_before_whitespace_is_kept "sql" "SELECT COUNT(*) FROM patients" nl);
    [reflexivity|discriminate|reflexivity].
Defined.

(** ** More properties of the orchestrator *)

Section PipelineFacts.

Variable cell : Type.
Variable pd : Pandas cell.

Lemma clean_sql_query_ok_inv (fence_tag raw sql : string) :
  clean_sql_query fence_tag raw = Ok sql ->
  sql = strip_artifacts fence_tag raw /\
  (startswith (upper sql) "SELECT" = true \/
   forall keyword, In keyword dangerous_keywords -> contains keyword (upper sql) = false).
Proof.
  unfold clean_sql_query.
  destruct (first_dangerous dangerous_keywords (upper (strip_artifacts fence_tag raw)))
    as [kw|] eqn:E; [discriminate|].
  intros H. inversion H; subst. split; [reflexivity|].
  now apply first_dangerous_none_inv.
Qed.

Lemma should_visualize_true_inv (query_type : string) (results : option (DataFrame cell)) :
  should_visualize query_type results = true ->
  exists df, results = Some df /\ 1 < len df /\ In query_type viz_types.
Proof.
  unfold should_visualize. destruct results as [df|]; [|discriminate].
  destruct (len df =? 0)%nat; [discriminate|].
  rewrite andb_true_iff, Nat.ltb_lt, existsb_exists.
  intros [(x & Hx & E) Hlt]. apply String.eqb_eq in E. subst x.
  now exists df.
Qed.

Lemma db_calls_app (a b : trace) :
  db_calls (a ++ b)%list = (db_calls a ++ db_calls b)%list.
Proof. unfold db_calls. apply flat_map_app. Qed.

End PipelineFacts.

(** X8.  One invocation of the pipeline calls the model once for the SQL,
    then the store at most once, then the model at most once more for the
    narrative, in this order and with no retry: the calls it adds are the
    synthesis call alone, or the synthesis call and one store call, or
    these two and one narration call. *)
Theorem pipeline_call_sequence (cell : Type) (pd : Pandas cell)
    (model : trace -> string -> result string) (fence_tag query : string)
    (processed_data : list (Dataset cell))
    (db_manager : trace -> string -> result (option (DataFrame cell))) (tr : trace) :
  let prompt :=
    sql_prompt query (build_data_context pd processed_data) (classify_query query) in
  exists calls,
    snd (process_natural_language_query pd model fence_tag query processed_data
           db_manager tr) = (tr ++ calls)%list /\
    (calls = [ModelCall prompt] \/
     exists sql,
       calls = [ModelCall prompt; DbCall sql] \/
       exists df,
         calls = [ModelCall prompt; DbCall sql;
                  ModelCall (response_prompt pd query df (classify_query query))]).
Proof.
  cbv zeta. rewrite process_run. cbv zeta.
  destruct (model tr _) as [text|e]; [|eexists; split; [reflexivity|now left]].
  destruct (clean_sql_query fence_tag (strip text)) as [sql|e];
    [|eexists; split; [reflexivity|now left]].
  destruct (db_manager _ sql) as [results|e].
  - rewrite generate_response_run. destruct results as [df|].
    + destruct (len df =? 0)%nat.
      * eexists. split; [simpl; rewrite <- app_assoc; reflexivity|].
        right. exists sql. now left.
      * eexists. split; [simpl; rewrite <- !app_assoc; reflexivity|].
        right. exists sql. right. now exists df.
    + eexists. split; [simpl; rewrite <- app_assoc; reflexivity|].
      right. exists sql. now left.
  - eexists. split; [simpl; rewrite <- app_assoc; reflexivity|].
    right. exists sql. now left.
Qed.

(** X9.  The store is only ever asked to run a text that the sanitizer
    returned for the model's answer: the text begins with SELECT when
    uppercased, or contains none of the six dangerous keywords. *)
Theorem store_receives_sanitized_sql (cell : Type) (pd : Pandas cell)
    (model : trace -> string -> result string) (fence_tag query : string)
    (processed_data : list (Dataset cell))
    (db_manager : trace -> string -> result (option (DataFrame cell)))
    (tr : trace) (sql : string) :
  let prompt :=
    sql_prompt query (build_data_context pd processed_data) (classify_query query) in
  In sql (db_calls (snd (process_natural_language_query pd model fence_tag query
                           processed_data db_manager tr))) ->
  In sql (db_calls tr) \/
  (exists text,
      model tr prompt = Ok text /\
      clean_sql_query fence_tag (strip text) = Ok sql /\
      (startswith (upper sql) "SELECT" = true \/
       forall keyword, In keyword dangerous_keywords ->
                       contains keyword (upper sql) = false)).
Proof.
  cbv zeta. rewrite process_run. cbv zeta.
  destruct (model tr _) as [text|e] eqn:Hm.
  2:{ simpl. rewrite db_calls_app. simpl. rewrite app_nil_r. now left. }
  destruct (clean_sql_query fence_tag (strip text)) as [sql'|e] eqn:Hc.
  2:{ simpl. rewrite db_calls_app. simpl. rewrite app_nil_r. now left. }
  assert (Hdone : forall rest : trace,
             db_calls rest = [] ->
             In sql (db_calls (((tr ++ [ModelCall (sql_prompt query
                                   (build_data_context pd processed_data)
                                   (classify_query query))]) ++ [DbCall sql']) ++ rest)%list) ->
             In sql (db_calls tr) \/
             (exists text0, Ok text = Ok text0 /\
                clean_sql_query fence_tag (strip text0) = Ok sql /\
                (startswith (upper sql) "SELECT" = true \/
                 forall keyword, In keyword dangerous_keywords ->
                                 contains keyword (upper sql) = false))).
  { intros rest Hrest. rewrite !db_calls_app, Hrest. simpl. rewrite !app_nil_r.
    rewrite in_app_iff. intros [H|[<-|[]]]; [now left|right].
    exists text. split; [reflexivity|]. split; [assumption|].
    exact (proj2 (clean_sql_query_ok_inv _ _ _ Hc)). }
  destruct (db_manager _ sql') as [results|e].
  - rewrite generate_response_run. destruct results as [df|].
    + destruct (len df =? 0)%nat; simpl.
      * intros H. apply (Hdone []); [reflexivity|now rewrite app_nil_r].
      * intros H.
        apply (Hdone [ModelCall (response_prompt pd query df (classify_query query))]);
          [reflexivity|exact H].
    + simpl. intros H. apply (Hdone []); [reflexivity|now rewrite app_nil_r].
  - simpl. intros H. apply (Hdone []); [reflexivity|now rewrite app_nil_r].
Qed.

Lemma store_receives_sanitized_sql_witness :
  In "SELECT age FROM patients" (db_calls []) \/
  (exists text,
      blank_narrator [] (sql_prompt "List the ages"
                           (build_data_context sample_pandas [patients])
                           (classify_query "List the ages")) = Ok text /\
      clean_sql_query "sql" (strip text) = Ok "SELECT age FROM patients" /\
      (startswith (upper "SELECT age FROM patients") "SELECT" = true \/
       forall keyword, In keyword dangerous_keywords ->
                       contains keyword (upper "SELECT age FROM patients") = false)).
Proof.
  apply (store_receives_sanitized_sql nat sample_pandas blank_narrator "sql"
           "List the ages" [patients] (constant_db two_ages) []).
  vm_compute. now left.
Defined.

(** X10.  Whenever the pipeline returns a [Response] that suggests a
    visualization, the response carries a result with at least two rows
    and its tag is one of distribution, correlation, trend and group. *)
Theorem suggested_visualization_has_data (cell : Type) (pd : Pandas cell)
    (model : trace -> string -> result string) (fence_tag query : string)
    (processed_data : list (Dataset cell))
    (db_manager : trace -> string -> result (option (DataFrame cell)))
    (tr tr' : trace) (r : Response cell) :
  process_natural_language_query pd model fence_tag query processed_data db_manager tr
  = (Ok r, tr') ->
  suggest_visualization r = true ->
  exists df,
    data r = Some df /\ 1 < len df /\
    In (type r) ["distribution"; "correlation"; "trend"; "group"].
Proof.
  rewrite process_run. cbv zeta.
  destruct (model tr _) as [text|e]; [|discriminate].
  destruct (clean_sql_query fence_tag (strip text)) as [sql|e]; [|discriminate].
  destruct (db_manager _ sql) as [results|e].
  - destruct (generate_response _ _ _ _ _ _ _) as [[text'|e] tr3];
      intros H; inversion H; subst; simpl; [|discriminate].
    apply should_visualize_true_inv.
  - intros H. inversion H; subst. discriminate.
Qed.

Lemma suggested_visualization_has_data_witness :
  exists df : DataFrame nat,
    Some two_ages = Some df /\ 1 < len df /\
    In "trend" ["distribution"; "correlation"; "trend"; "group"].
Proof.
  exact (suggested_visualization_has_data nat sample_pandas blank_narrator "sql"
           "Show the trend of age" [patients] (constant_db two_ages) [] _ _
           eq_refl eq_refl).
Defined.

(** ** The texts given to the user and to the model *)

Section Texts.

Variable cell : Type.
Variable pd : Pandas cell.

Lemma occurs_here (w post : string) : occurs w (w ++ post).
Proof. now exists "", post. Qed.

Lemma occurs_after (a w s : string) : occurs w s -> occurs w (a ++ s).
Proof.
  intros (pre & post & ->). exists (a ++ pre), post. now rewrite append_assoc.
Qed.

Lemma occurs_before (w s b : string) : occurs w s -> occurs w (s ++ b).
Proof.
  intros (pre & post & ->). exists pre, (post ++ b). now rewrite !append_assoc.
Qed.

Lemma occurs_join (w sep : string) : forall parts x,
  In x parts -> occurs w x -> occurs w (join sep parts).
Proof.
  unfold join. induction parts as [|y parts IH]; intros x Hin Hw; [destruct Hin|].
  destruct Hin as [->|Hin].
  - destruct parts; simpl; [assumption|now apply occurs_before].
  - destruct parts as [|z parts]; [destruct Hin|].
    change (String.concat sep (y :: z :: parts))
      with (y ++ sep ++ String.concat sep (z :: parts)).
    apply occurs_after, occurs_after. now apply (IH x).
Qed.

Lemma fold_left_append (A : Type) (f : A -> string) : forall l init,
  fold_left (fun acc x => acc ++ f x) l init = init ++ String.concat "" (map f l).
Proof.
  induction l as [|x l IH]; intros init; simpl.
  - now rewrite append_nil_r.
  - rewrite IH, append_assoc. destruct l; simpl; [now rewrite append_nil_r|reflexivity].
Qed.

Lemma in_combine_seq (A : Type) (x : A) : forall l start,
  In x l -> exists j, In (j, x) (combine (seq start (length l)) l).
Proof.
  induction l as [|y l IH]; intros start Hin; [destruct Hin|].
  destruct Hin as [->|Hin]; simpl.
  - exists start. now left.
  - destruct (IH (S start) Hin) as (j & Hj). exists j. now right.
Qed.

Lemma table_info_unfold (d : Dataset cell) :
  table_info pd d =
  (nl ++ "Table: " ++ table d ++ nl
   ++ "Rows: " ++ str_nat (len (dataframe d)) ++ nl
   ++ "Columns: " ++ str_nat (length (columns (dataframe d))) ++ nl
   ++ "Column Details:" ++ nl)
  ++ String.concat ""
       (map (fun jc => column_info pd (dataframe d) (fst jc) (fst (snd jc)) (snd (snd jc)))
            (indexed_columns (dataframe d))).
Proof. unfold table_info. cbv zeta. apply fold_left_append. Qed.

End Texts.

(** X11.  The context given to the model names every table with its row
    count, and lists every column of every table with its dtype. *)
Theorem build_data_context_mentions (cell : Type) (pd : Pandas cell)
    (processed_data : list (Dataset cell)) (d : Dataset cell) :
  In d processed_data ->
  occurs ("Table: " ++ table d ++ nl ++ "Rows: " ++ str_nat (len (dataframe d)) ++ nl)
         (build_data_context pd processed_data) /\
  (forall col dt,
      In (col, dt) (columns (dataframe d)) ->
      occurs ("  - " ++ col ++ " (" ++ dtype_name dt ++ "): ")
             (build_data_context pd processed_data)).
Proof.
  intros Hin. unfold build_data_context. split.
  - apply (occurs_join _ _ _ (table_info pd d)); [now apply in_map|].
    rewrite table_info_unfold. apply occurs_before, occurs_after.
    exists "", ("Columns: " ++ str_nat (length (columns (dataframe d))) ++ nl
                ++ "Column Details:" ++ nl).
    repeat first [rewrite !append_assoc | progress cbn [append]]. reflexivity.
  - intros col dt Hc.
    apply (occurs_join _ _ _ (table_info pd d)); [now apply in_map|].
    rewrite table_info_unfold. apply occurs_after.
    destruct (in_combine_seq _ (col, dt) (columns (dataframe d)) 0 Hc) as (j & Hj).
    apply (occurs_join _ _ _ (column_info pd (dataframe d) j col dt)).
    + apply (in_map (fun jc => column_info pd (dataframe d) (fst jc) (fst (snd jc))
                                 (snd (snd jc))) _ (j, (col, dt))).
      exact Hj.
    + unfold column_info. cbv zeta. apply occurs_before.
      destruct (is_object dt && _); exists ""; eexists;
        repeat first [rewrite !append_assoc | progress cbn [append]]; reflexivity.
Qed.

Lemma build_data_context_mentions_witness :
  occurs ("Table: " ++ "patients" ++ nl ++ "Rows: " ++ "4" ++ nl)
         (build_data_context sample_pandas [patients]).
Proof.
  exact (proj1 (build_data_context_mentions nat sample_pandas [patients] patients
                  (or_introl eq_refl))).
Defined.

Lemma occurs_refl (w : string) : occurs w w.
Proof. exists "", "". simpl. now rewrite append_nil_r. Qed.

Ltac find_in_chain :=
  first [ apply occurs_here | apply occurs_refl | apply occurs_after; find_in_chain ].

(** X12.  The error-fallback narrative repeats the error text as it is;
    when there is a dataset it also repeats the question and shows a sample
    of the first dataset, of at most three rows; the datasets after the
    first do not change the response. *)
Theorem handle_query_error_echoes (cell : Type) (pd : Pandas cell)
    (query error : string) (processed_data : list (Dataset cell)) :
  occurs error (response (handle_query_error pd query error processed_data)) /\
  (forall first rest,
      processed_data = first :: rest ->
      occurs query (response (handle_query_error pd query error processed_data)) /\
      occurs (to_string pd (df_head 3 (dataframe first)))
             (response (handle_query_error pd query error processed_data)) /\
      len (df_head 3 (dataframe first)) <= 3 /\
      handle_query_error pd query error processed_data
      = handle_query_error pd query error [first]).
Proof.
  unfold handle_query_error. cbv zeta. cbn [response]. split.
  - destruct processed_data as [|first rest]; find_in_chain.
  - intros first rest ->. split; [find_in_chain|]. split; [find_in_chain|].
    split; [|reflexivity].
    unfold len, df_head. cbn [rows]. apply firstn_le_length.
Qed.

Lemma handle_query_error_echoes_witness :
  handle_query_error sample_pandas "How many patients are there?" "no such table: patients"
    [patients; {| table := "visits"; dataframe := two_ages |}]
  = handle_query_error sample_pandas "How many patients are there?" "no such table: patients"
      [patients].
Proof.
  exact (proj2 (proj2 (proj2
           (proj2 (handle_query_error_echoes nat sample_pandas
                     "How many patients are there?" "no such table: patients"
                     [patients; {| table := "visits"; dataframe := two_ages |}])
                  patients [{| table := "visits"; dataframe := two_ages |}] eq_refl)))).
Defined.

(** ** Suggested questions *)

Section SuggestionFacts.

Variable cell : Type.

Lemma suggestions_for_length (u : Upload cell) :
  3 <= length (suggestions_for u) <= 8.
Proof.
  unfold suggestions_for. cbv zeta. rewrite !List.length_app.
  destruct (first_column is_number _), (first_column is_object _); simpl; lia.
Qed.

Lemma suggestions_length_ge (data : list (Upload cell)) :
  3 * length data <= length (flat_map suggestions_for data).
Proof.
  induction data as [|u data IH]; simpl; [lia|].
  rewrite List.length_app. pose proof (suggestions_for_length u). lia.
Qed.

Lemma nth_error_firstn_in (A : Type) (x : A) : forall l c n,
  nth_error l c = Some x -> c < n -> In x (firstn n l).
Proof.
  induction l as [|y l IH]; intros c n H L; [destruct c; discriminate|].
  destruct n as [|n]; [lia|]. destruct c as [|c]; simpl in *.
  - inversion H. now left.
  - right. apply (IH c); [assumption|lia].
Qed.

(** A question whose lowercase form has an alternative of the rule at
    position [a] standing alone gets the tag of that rule or of one
    declared before it. *)
Lemma classify_at_or_before (query : string) (a : nat) (i : string) (alts : list string)
    (c : ascii) (w : string) :
  rule_at a i alts ->
  In (String c w) alts ->
  is_word c = true ->
  word_side (last_or None (String c w)) = true ->
  standalone (String c w) (lower query) ->
  In (classify_query query) (firstn (S a) (map fst query_patterns)).
Proof.
  intros Ha Hin Hc Hl Hs.
  pose proof (search_words_standalone alts c w (lower query) Hin Hc Hl Hs) as E.
  destruct (classify_loop_first _ _ _ _ _ Ha E) as (c0 & k & pk & Hle & Hc0 & _ & _ & Hk).
  unfold classify_query. rewrite Hk.
  apply (nth_error_firstn_in _ k _ c0); [|lia].
  now rewrite nth_error_map, Hc0.
Qed.

Lemma lower_app (a b : string) : lower (a ++ b) = lower a ++ lower b.
Proof. apply map_chars_app. Qed.

End SuggestionFacts.

(** X13.  [generate_smart_suggestions] returns at most ten questions,
    none for no dataset, at least three as soon as there is a dataset, and
    exactly ten when there are four datasets or more. *)
Theorem generate_smart_suggestions_size (cell : Type) (processed_data : list (Upload cell)) :
  length (generate_smart_suggestions processed_data) <= 10 /\
  (processed_data = [] -> generate_smart_suggestions processed_data = []) /\
  (processed_data <> [] -> 3 <= length (generate_smart_suggestions processed_data)) /\
  (4 <= length processed_data -> length (generate_smart_suggestions processed_data) = 10).
Proof.
  unfold generate_smart_suggestions. rewrite length_firstn.
  pose proof (suggestions_length_ge cell processed_data) as H.
  split; [apply Nat.le_min_l|]. split; [now intros ->|].
  split; [|intros L; apply Nat.min_l; lia].
  intros Hne. destruct processed_data; [contradiction|].
  apply Nat.min_glb; [lia|]. cbn [length] in H. lia.
Qed.

Lemma generate_smart_suggestions_size_witness :
  length (generate_smart_suggestions
            [ {| name := "a.csv"; entry := patients |};
              {| name := "b.csv"; entry := patients |};
              {| name := "c.csv"; entry := patients |};
              {| name := "d.csv"; entry := patients |} ]) = 10.
Proof.
  apply (proj2 (proj2 (proj2 (generate_smart_suggestions_size nat _)))). simpl. lia.
Defined.

(** X14.  The first suggestion is the question "How many records are in
    NAME?" about the first dataset, and the handler classifies it as
    "count" whatever the name is. *)
Theorem first_suggestion_is_count (cell : Type) (first : Upload cell)
    (rest : list (Upload cell)) :
  hd_error (generate_smart_suggestions (first :: rest))
  = Some ("How many records are in " ++ name first ++ "?") /\
  classify_query ("How many records are in " ++ name first ++ "?") = "count".
Proof.
  split; [reflexivity|].
  assert (H : In (classify_query ("How many records are in " ++ name first ++ "?"))
                 (firstn 1 (map fst query_patterns))).
  { apply (classify_at_or_before _ 0 "count" ["how many"; "count"; "number of"; "total"]
             "h" "ow many"); try reflexivity; [simpl; tauto|].
    exists "", (" records are in " ++ lower (name first) ++ "?").
    split; [|split; reflexivity].
    rewrite lower_app. cbn [append]. f_equal.
    rewrite lower_app. reflexivity. }
  simpl in H. tauto.
Qed.

(** X15.  The suggestions about the first numeric column: the handler
    classifies "What is the average COL?" as "average" or "count", the
    distribution question as one of the intents up to "distribution", and
    "Find outliers in COL" as one of the intents up to "filter"; none of
    them is ever "general". *)
Theorem numeric_suggestions_classification (cell : Type) (u : Upload cell) (col : string) :
  first_column is_number (dataframe (entry u)) = Some col ->
  (In ("What is the average " ++ col ++ "?") (suggestions_for u) /\
   In (classify_query ("What is the average " ++ col ++ "?")) ["count"; "average"]) /\
  (In ("Show distribution of " ++ col) (suggestions_for u) /\
   In (classify_query ("Show distribution of " ++ col))
      ["count"; "average"; "max"; "min"; "sum"; "distribution"]) /\
  (In ("Find outliers in " ++ col) (suggestions_for u) /\
   In (classify_query ("Find outliers in " ++ col))
      ["count"; "average"; "max"; "min"; "sum"; "distribution"; "correlation"; "filter"]).
Proof.
  intros Hcol.
  assert (Hin : forall q,
             In q ["What is the average " ++ col ++ "?"; "Show distribution of " ++ col;
                   "Find outliers in " ++ col] ->
             In q (suggestions_for u)).
  { intros q Hq. unfold suggestions_for. cbv zeta. rewrite Hcol.
    apply in_or_app. right. apply in_or_app. now left. }
  split; [|split]; (split; [apply Hin; simpl; tauto|]).
  - apply (classify_at_or_before _ 1 "average" ["average"; "mean"; "avg"] "a" "verage");
      try reflexivity; [simpl; tauto|].
    exists "what is the ", (" " ++ lower col ++ "?").
    split; [|split; reflexivity].
    rewrite lower_app. cbn [append]. f_equal. rewrite lower_app. reflexivity.
  - apply (classify_at_or_before _ 5 "distribution" ["distribution"; "spread"; "range"]
             "d" "istribution"); try reflexivity; [simpl; tauto|].
    exists "show ", (" of " ++ lower col).
    split; [|split; reflexivity].
    rewrite lower_app. reflexivity.
  - apply (classify_at_or_before _ 7 "filter" ["where"; "filter"; "show me"; "find"]
             "f" "ind"); try reflexivity; [simpl; tauto|].
    exists "", (" outliers in " ++ lower col).
    split; [|split; reflexivity].
    rewrite lower_app. reflexivity.
Qed.

Lemma numeric_suggestions_classification_witness :
  In (classify_query ("What is the average " ++ "id" ++ "?")) ["count"; "average"].
Proof.
  exact (proj2 (proj1 (numeric_suggestions_classification nat
                         {| name := "patients.csv"; entry := patients |} "id" eq_refl))).
Defined.

(** ** The table name of an upload *)

Section TableName.

Lemma before_first_app (sep : ascii) (stem rest : string) :
  mem_char sep stem = false ->
  before_first sep (stem ++ String sep rest) = stem.
Proof.
  induction stem as [|c stem IH]; cbn [mem_char append before_first].
  - now rewrite Ascii.eqb_refl.
  - intros H. apply orb_false_iff in H. destruct H as [Hc Hs].
    rewrite Ascii.eqb_sym, Hc. now rewrite IH.
Qed.

Lemma upper_char_dot (c : ascii) : Ascii.eqb "." (upper_char c) = Ascii.eqb "." c.
Proof. by_all_chars c. Qed.

Lemma mem_dot_upper (s : string) : mem_char "." (upper s) = mem_char "." s.
Proof.
  induction s as [|c s IH]; [reflexivity|].
  unfold upper in *. cbn [map_chars mem_char]. now rewrite upper_char_dot, IH.
Qed.

Lemma lower_upper_ascii (s : string) :
  all_chars is_ascii s = true -> lower (upper s) = lower s.
Proof.
  induction s as [|c s IH]; [reflexivity|].
  cbn [all_chars]. rewrite andb_true_iff. intros [_ Hs].
  unfold lower, upper in *. cbn [map_chars]. now rewrite lower_upper_char, IH.
Qed.

End TableName.

(** X16.  The table of an upload is named after the part of the file name
    before its first dot, lowercased: two files whose names differ only by
    what follows the first dot get the same table name, and so do two
    files whose ASCII names differ only by case before the first dot. *)
Theorem upload_table_name_collides (stem ext1 ext2 : string) :
  mem_char "." stem = false ->
  upload_table_name (stem ++ "." ++ ext1) = "data_" ++ lower stem /\
  upload_table_name (stem ++ "." ++ ext2) = upload_table_name (stem ++ "." ++ ext1) /\
  (all_chars is_ascii stem = true ->
   upload_table_name (upper stem ++ "." ++ ext2) = upload_table_name (stem ++ "." ++ ext1)).
Proof.
  intros H.
  assert (E : forall ext, upload_table_name (stem ++ "." ++ ext) = "data_" ++ lower stem).
  { intros ext. unfold upload_table_name.
    change (stem ++ "." ++ ext) with (stem ++ String "." ext).
    now rewrite before_first_app. }
  split; [apply E|]. split; [now rewrite !E|].
  intros Ha. rewrite E. unfold upload_table_name.
  change (upper stem ++ "." ++ ext2) with (upper stem ++ String "." ext2).
  rewrite before_first_app by now rewrite mem_dot_upper.
  now rewrite lower_upper_ascii.
Qed.

Lemma upload_table_name_collides_witness :
  upload_table_name (upper "patients" ++ "." ++ "v2.json")
  = upload_table_name ("patients" ++ "." ++ "csv").
Proof.
  exact (proj2 (proj2 (upload_table_name_collides "patients" "csv" "v2.json" eq_refl))
               eq_refl).
Defined.

(** ** Column names *)

Section ColumnNames.

Lemma filter_chars_all (p : ascii -> bool) (s : string) :
  all_chars p (filter_chars p s) = true.
Proof.
  induction s as [|c s IH]; simpl; [reflexivity|].
  destruct (p c) eqn:E; simpl; [now rewrite E|assumption].
Qed.

Lemma filter_chars_id (p : ascii -> bool) (s : string) :
  all_chars p s = true -> filter_chars p s = s.
Proof.
  induction s as [|c s IH]; simpl; [reflexivity|].
  rewrite andb_true_iff. intros [Hc Hs]. now rewrite Hc, IH.
Qed.

Lemma all_chars_lstrip (q p : ascii -> bool) (s : string) :
  all_chars q s = true -> all_chars q (lstrip_if p s) = true.
Proof.
  induction s as [|c s IH]; simpl; [reflexivity|].
  rewrite andb_true_iff. intros [Hc Hs].
  destruct (p c); [now apply IH|simpl; now rewrite Hc, Hs].
Qed.

Lemma all_chars_rstrip (q p : ascii -> bool) (s : string) :
  all_chars q s = true -> all_chars q (rstrip_if p s) = true.
Proof.
  induction s as [|c s IH]; simpl; [reflexivity|].
  rewrite andb_true_iff. intros [Hc Hs].
  specialize (IH Hs). destruct (rstrip_if p s).
  - destruct (p c); simpl; [reflexivity|now rewrite Hc].
  - cbn [all_chars] in *. now rewrite Hc, IH.
Qed.

Lemma sub_ws_runs_word (s : string) : forall in_run,
  all_chars (fun c => is_word c || is_space c) s = true ->
  all_chars is_word (sub_ws_runs in_run s) = true.
Proof.
  induction s as [|c s IH]; intros in_run; cbn [all_chars sub_ws_runs]; [reflexivity|].
  rewrite andb_true_iff. intros [Hc Hs].
  destruct (is_space c) eqn:E.
  - destruct in_run; [now apply IH|]. cbn [all_chars]. now rewrite IH.
  - rewrite orb_false_r in Hc. cbn [all_chars]. now rewrite Hc, IH.
Qed.

Lemma sub_ws_runs_id (s : string) : forall in_run,
  all_chars is_word s = true -> sub_ws_runs in_run s = s.
Proof.
  induction s as [|c s IH]; intros in_run; cbn [all_chars sub_ws_runs]; [reflexivity|].
  rewrite andb_true_iff. intros [Hc Hs].
  now rewrite (word_not_space c Hc), IH.
Qed.

Lemma title_from_word (s : string) : forall b,
  all_chars is_word s = true -> all_chars is_word (title_from b s) = true.
Proof.
  induction s as [|c s IH]; intros b; cbn [all_chars title_from]; [reflexivity|].
  rewrite andb_true_iff. intros [Hc Hs]. rewrite IH by assumption.
  destruct b; [rewrite is_word_lower_char|rewrite is_word_upper_char]; now rewrite Hc.
Qed.

Lemma title_from_idem (s : string) : forall b,
  title_from b (title_from b s) = title_from b s.
Proof.
  induction s as [|c s IH]; intros b; cbn [title_from]; [reflexivity|].
  destruct b.
  - now rewrite lower_char_idem, is_letter_lower_char, IH.
  - now rewrite upper_char_idem, is_letter_upper_char, IH.
Qed.

Lemma word_not_space_all (s : string) :
  all_chars is_word s = true -> all_chars (fun c => negb (is_space c)) s = true.
Proof.
  apply all_chars_impl. intros c Hc. now rewrite (word_not_space c Hc).
Qed.

Lemma strip_id (s : string) :
  all_chars (fun c => negb (is_space c)) s = true -> strip s = s.
Proof.
  intros H. unfold strip. now rewrite (lstrip_if_none _ _ H), (rstrip_if_none _ _ H).
Qed.

Lemma clean_column_name_word (col : string) :
  all_chars is_word (clean_column_name col) = true.
Proof.
  unfold clean_column_name, title, remove_special, strip. cbv zeta.
  apply title_from_word, sub_ws_runs_word, all_chars_rstrip, all_chars_lstrip,
    filter_chars_all.
Qed.

(** A name made of word characters only goes through the first steps
    unchanged; only the case is normalised. *)
Lemma clean_column_name_of_word (s : string) :
  all_chars is_word s = true -> clean_column_name s = title s.
Proof.
  intros H. unfold clean_column_name, remove_special. cbv zeta.
  rewrite filter_chars_id.
  - now rewrite (strip_id s (word_not_space_all s H)), (sub_ws_runs_id s false H).
  - revert H. apply all_chars_impl. intros c Hc. now rewrite Hc.
Qed.

Lemma clean_column_name_fixed (col : string) :
  clean_column_name (clean_column_name col) = clean_column_name col.
Proof.
  rewrite (clean_column_name_of_word _ (clean_column_name_word col)).
  unfold clean_column_name, title. cbv zeta. apply title_from_idem.
Qed.

End ColumnNames.

(** X17.  The cleaned name of an ASCII header is made of letters, digits
    and underscores only. *)
Theorem clean_column_name_word_only (col : string) :
  all_chars is_ascii col = true ->
  all_chars is_word (clean_column_name col) = true.
Proof. intros _. exact (clean_column_name_word col). Qed.

Lemma clean_column_name_word_only_witness :
  all_chars is_word (clean_column_name "  blood pressure (mmHg) ") = true.
Proof.
  exact (clean_column_name_word_only "  blood pressure (mmHg) " eq_refl).
Defined.

(** X18.  Cleaning the name of an ASCII header is idempotent. *)
Theorem clean_column_name_idempotent (col : string) :
  all_chars is_ascii col = true ->
  clean_column_name (clean_column_name col) = clean_column_name col.
Proof. intros _. exact (clean_column_name_fixed col). Qed.

Lemma clean_column_name_idempotent_witness :
  clean_column_name (clean_column_name "  blood pressure (mmHg) ")
  = clean_column_name "  blood pressure (mmHg) ".
Proof.
  exact (clean_column_name_idempotent "  blood pressure (mmHg) " eq_refl).
Defined.

Section ColumnCollisions.

Lemma sub_ws_runs_after_word (a rest : string) : forall in_run,
  a <> "" -> all_chars is_word a = true ->
  sub_ws_runs in_run (a ++ rest) = a ++ sub_ws_runs false rest.
Proof.
  induction a as [|c a IH]; intros in_run Hne H; [contradiction|].
  cbn [all_chars] in H. apply andb_true_iff in H. destruct H as [Hc Ha].
  cbn [append sub_ws_runs]. rewrite (word_not_space c Hc).
  destruct a as [|d a]; [reflexivity|].
  now rewrite (IH false) by (discriminate || assumption).
Qed.

Lemma rstrip_if_word_tail (x b : string) :
  b <> "" -> all_chars is_word b = true ->
  rstrip_if is_space (x ++ b) = x ++ b.
Proof.
  intros Hne H. destruct b as [|c b]; [contradiction|].
  cbn [all_chars] in H. apply andb_true_iff in H. destruct H as [Hc Hb].
  rewrite (rstrip_keeps is_space c b (word_not_space c Hc)).
  now rewrite (rstrip_if_none _ _ (word_not_space_all b Hb)).
Qed.

Lemma lstrip_if_word_head (a rest : string) :
  a <> "" -> all_chars is_word a = true ->
  lstrip_if is_space (a ++ rest) = a ++ rest.
Proof.
  intros Hne H. destruct a as [|c a]; [contradiction|].
  cbn [all_chars] in H. apply andb_true_iff in H. destruct H as [Hc _].
  cbn [append lstrip_if]. now rewrite (word_not_space c Hc).
Qed.

End ColumnCollisions.

(** X19.  A space and an underscore between two words give the same
    cleaned name: two different headers can end up as one column name. *)
Theorem clean_column_name_space_underscore (a b : string) :
  a <> "" -> b <> "" ->
  all_chars is_word a = true -> all_chars is_word b = true ->
  a ++ " " ++ b <> a ++ "_" ++ b /\
  clean_column_name (a ++ " " ++ b) = clean_column_name (a ++ "_" ++ b).
Proof.
  intros Ha Hb Wa Wb. split.
  - clear. induction a as [|c a IH]; cbn [append]; [discriminate|].
    intros H. inversion H. contradiction.
  - assert (Wu : all_chars is_word (a ++ "_" ++ b) = true).
    { rewrite !all_chars_app, Wa, Wb. reflexivity. }
    rewrite (clean_column_name_of_word _ Wu).
    unfold clean_column_name, remove_special. cbv zeta.
    rewrite filter_chars_id.
    2:{ rewrite !all_chars_app.
        rewrite (all_chars_impl is_word _ a), (all_chars_impl is_word _ b);
          try assumption; try reflexivity; intros c Hc; now rewrite Hc. }
    unfold strip. rewrite (lstrip_if_word_head a _ Ha Wa).
    replace (a ++ " " ++ b) with ((a ++ " ") ++ b) by apply append_assoc.
    rewrite (rstrip_if_word_tail _ b Hb Wb), append_assoc.
    rewrite (sub_ws_runs_after_word a _ false Ha Wa).
    cbn [append sub_ws_runs]. simpl (is_space " ").
    cbv iota. now rewrite (sub_ws_runs_id b true Wb).
Qed.

Lemma clean_column_name_space_underscore_witness :
  "blood" ++ " " ++ "pressure" <> "blood" ++ "_" ++ "pressure" /\
  clean_column_name ("blood" ++ " " ++ "pressure")
  = clean_column_name ("blood" ++ "_" ++ "pressure").
Proof.
  apply (clean_column_name_space_underscore "blood" "pressure");
    [discriminate|discriminate|reflexivity|reflexivity].
Defined.

(** X20.  A header without any letter, digit or underscore is cleaned to
    the empty name. *)
Theorem clean_column_name_no_word_char (col : string) :
  all_chars (fun c => negb (is_word c)) col = true ->
  clean_column_name col = "".
Proof.
  intros H. unfold clean_column_name, remove_special. cbv zeta.
  assert (Hs : all_chars is_space
                 (filter_chars (fun c => is_word c || is_space c) col) = true).
  { induction col as [|c col IH]; cbn [all_chars filter_chars] in *; [reflexivity|].
    apply andb_true_iff in H. destruct H as [Hc Hcol].
    apply negb_true_iff in Hc. rewrite Hc. simpl.
    destruct (is_space c) eqn:E; [cbn [all_chars]; now rewrite E, IH|now apply IH]. }
  apply strip_blank_iff in Hs. now rewrite Hs.
Qed.

Lemma clean_column_name_no_word_char_witness :
  clean_column_name "% (#)" = "".
Proof.
  apply (clean_column_name_no_word_char "% (#)"). reflexivity.
Defined.

(** X21.  For ASCII headers [clean_column_names] keeps the number of
    columns, and running it again on its own result changes neither the
    names nor the log. *)
Theorem clean_column_names_twice (clock : nat -> string) (original_columns : list string)
    (processing_log : list string) :
  (forall col, In col original_columns -> all_chars is_ascii col = true) ->
  let first_run := clean_column_names clock original_columns processing_log in
  length (fst first_run) = length original_columns /\
  clean_column_names clock (fst first_run) (snd first_run) = first_run.
Proof.
  intros _. cbv zeta.
  assert (Hfst : forall cols lg,
             fst (clean_column_names clock cols lg) = map clean_column_name cols).
  { intros cols lg. unfold clean_column_names. cbv zeta.
    now destruct (filter _ _). }
  split; [now rewrite Hfst, length_map|].
  assert (Hfix : forall cols lg,
             (forall c, In c cols -> clean_column_name c = c) ->
             clean_column_names clock cols lg = (cols, lg)).
  { intros cols lg H. unfold clean_column_names. cbv zeta.
    assert (E : map clean_column_name cols = cols).
    { induction cols as [|c cols IH]; [reflexivity|]. simpl.
      rewrite (H c) by now left. rewrite IH; [reflexivity|].
      intros c' Hc'. apply H. now right. }
    rewrite E.
    assert (F : filter (fun on : string * string => negb (String.eqb (fst on) (snd on)))
                       (combine cols cols) = []).
    { clear. induction cols as [|c cols IH]; [reflexivity|].
      simpl. now rewrite String.eqb_refl. }
    now rewrite F. }
  rewrite (surjective_pairing (clean_column_names clock original_columns processing_log))
    at 3.
  apply Hfix. intros c Hc. rewrite Hfst in Hc. apply in_map_iff in Hc.
  destruct Hc as (c0 & <- & _). apply clean_column_name_fixed.
Qed.

Lemma clean_column_names_twice_witness :
  clean_column_names (fun _ => "12:00:00") ["Age"; "Blood_Pressure"]
    ["[12:00:00] Cleaned column names: 1 columns renamed"]
  = (["Age"; "Blood_Pressure"], ["[12:00:00] Cleaned column names: 1 columns renamed"]).
Proof.
  refine (proj2 (clean_column_names_twice (fun _ => "12:00:00") ["Age"; "blood pressure"]
                   [] _)).
  intros col [<-|[<-|[]]]; reflexivity.
Defined.

(** ** File validation *)

Section FileValidationFacts.

Lemma append_cancel_l (a x y : string) : a ++ x = a ++ y -> x = y.
Proof.
  induction a as [|c a IH]; cbn [append]; [trivial|].
  intros H. inversion H. now apply IH.
Qed.

Lemma df_empty_no_columns (cell : Type) (df : DataFrame cell) :
  df_empty df = false -> (length (columns df) <? 1)%nat = false.
Proof.
  unfold df_empty. intros H. apply orb_false_iff in H. destruct H as [_ H].
  destruct (length (columns df)); [discriminate|reflexivity].
Qed.

End FileValidationFacts.

(** X22.  [validate_csv_file] accepts a file exactly when its size, if it
    has one, is at most 200 MB, its lowercased suffix is .csv, .xlsx or
    .json, and, for .csv only, the first five rows can be read and give a
    frame that is not empty. *)
Theorem validate_csv_file_accepts_iff (cell : Type) (path_suffix : string -> string)
    (read_csv : UploadedFile -> nat -> result (DataFrame cell)) (file : UploadedFile) :
  fst (validate_csv_file path_suffix read_csv file) = true <->
  (forall n, size file = Some n -> (n <= 200 * 1024 * 1024)%N) /\
  In (lower (path_suffix (file_name file))) [".csv"; ".xlsx"; ".json"] /\
  (lower (path_suffix (file_name file)) = ".csv" ->
   exists sample_df, read_csv file 5 = Ok sample_df /\ df_empty sample_df = false).
Proof.
  unfold validate_csv_file. cbv zeta.
  assert (Hsize : match size file with
                  | Some n => (max_upload_size <? n)%N
                  | None => false
                  end = false <->
                  (forall n, size file = Some n -> (n <= 200 * 1024 * 1024)%N)).
  { destruct (size file) as [n|].
    - rewrite N.ltb_ge. unfold max_upload_size. split.
      + intros H m Hm. inversion Hm; subst. exact H.
      + intros H. now apply H.
    - split; [discriminate|reflexivity]. }
  destruct (match size file with Some n => (max_upload_size <? n)%N | None => false end).
  { split; [discriminate|]. intros (H & _). apply Hsize in H. discriminate. }
  assert (Hs : forall n, size file = Some n -> (n <= 200 * 1024 * 1024)%N)
    by now apply Hsize.
  assert (Hext : existsb (String.eqb (lower (path_suffix (file_name file))))
                         [".csv"; ".xlsx"; ".json"] = true <->
                 In (lower (path_suffix (file_name file))) [".csv"; ".xlsx"; ".json"]).
  { rewrite existsb_exists. split.
    - intros (x & Hx & E). apply String.eqb_eq in E. now subst.
    - intros H. eexists. split; [exact H|apply String.eqb_refl]. }
  destruct (existsb _ _) eqn:Ex; cbn [negb].
  2:{ split; [discriminate|]. intros (_ & H & _). apply Hext in H. discriminate. }
  assert (Hin : In (lower (path_suffix (file_name file))) [".csv"; ".xlsx"; ".json"])
    by now apply Hext.
  destruct (String.eqb_spec (lower (path_suffix (file_name file))) ".csv") as [E|E].
  - destruct (read_csv file 5) as [sample_df|e] eqn:R.
    + destruct (df_empty sample_df) eqn:D.
      * split; [discriminate|]. intros (_ & _ & H).
        destruct (H E) as (s & Hs' & Hd). inversion Hs'; subst. congruence.
      * rewrite (df_empty_no_columns _ _ D). split; [intros _|reflexivity].
        repeat split; try assumption. intros _. now exists sample_df.
    + split; [discriminate|]. intros (_ & _ & H).
      destruct (H E) as (s & Hs' & _). discriminate.
  - split; [intros _|reflexivity]. repeat split; try assumption. intros H. contradiction.
Qed.

(** X23.  Every rejection by [validate_csv_file] comes with exactly one
    error message on the page, and an acceptance with none. *)
Theorem validate_csv_file_one_error (cell : Type) (path_suffix : string -> string)
    (read_csv : UploadedFile -> nat -> result (DataFrame cell)) (file : UploadedFile) :
  length (st_errors (snd (validate_csv_file path_suffix read_csv file)))
  = if fst (validate_csv_file path_suffix read_csv file) then 0 else 1.
Proof.
  unfold validate_csv_file. cbv zeta.
  destruct (match size file with Some n => (max_upload_size <? n)%N | None => false end);
    [reflexivity|].
  destruct (negb _); [reflexivity|].
  destruct (String.eqb _ ".csv"); [|reflexivity].
  destruct (read_csv file 5) as [sample_df|e]; [|reflexivity].
  destruct (df_empty sample_df); [reflexivity|].
  destruct (length (columns sample_df) <? 1)%nat; reflexivity.
Qed.

(** X24.  The file is read only when its lowercased suffix is .csv and its
    size is within the limit; a file with the suffix .xlsx or .json within
    the limit is accepted without being read. *)
Theorem validate_csv_file_reads_only_csv (cell : Type) (path_suffix : string -> string)
    (read_csv : UploadedFile -> nat -> result (DataFrame cell)) (file : UploadedFile) :
  (reads (snd (validate_csv_file path_suffix read_csv file)) <> [] ->
   lower (path_suffix (file_name file)) = ".csv" /\
   forall n, size file = Some n -> (n <= 200 * 1024 * 1024)%N) /\
  ((forall n, size file = Some n -> (n <= 200 * 1024 * 1024)%N) ->
   In (lower (path_suffix (file_name file))) [".xlsx"; ".json"] ->
   validate_csv_file path_suffix read_csv file = (true, [])).
Proof.
  unfold validate_csv_file. cbv zeta. split.
  - destruct (size file) as [n|] eqn:S.
    + destruct (N.ltb_spec max_upload_size n) as [L|L]; [intros H; now contradiction H|].
      destruct (negb _); [intros H; now contradiction H|].
      destruct (String.eqb_spec (lower (path_suffix (file_name file))) ".csv") as [E|E];
        [|intros H; now contradiction H].
      intros _. split; [assumption|]. intros m Hm. inversion Hm; subst. exact L.
    + destruct (negb _); [intros H; now contradiction H|].
      destruct (String.eqb_spec (lower (path_suffix (file_name file))) ".csv") as [E|E];
        [|intros H; now contradiction H].
      intros _. split; [assumption|]. discriminate.
  - intros Hs Hin.
    assert (Hsize : match size file with
                    | Some n => (max_upload_size <? n)%N
                    | None => false
                    end = false).
    { destruct (size file) as [n|]; [|reflexivity].
      apply N.ltb_ge. now apply Hs. }
    rewrite Hsize.
    destruct Hin as [E|[E|[]]]; rewrite <- E; reflexivity.
Qed.

Lemma validate_csv_file_reads_only_csv_witness :
  validate_csv_file (fun _ => ".XLSX")
    (fun _ _ => Raise (Exception "not a csv file") : result (DataFrame nat))
    {| file_name := "labs.XLSX"; size := Some 1024%N |}
  = (true, []).
Proof.
  apply (proj2 (validate_csv_file_reads_only_csv nat (fun _ => ".XLSX")
                  (fun _ _ => Raise (Exception "not a csv file"))
                  {| file_name := "labs.XLSX"; size := Some 1024%N |})).
  - intros n H. inversion H. discriminate.
  - simpl. tauto.
Defined.

(** X25.  The message "must have at least 1 column." is never shown: a
    sample without columns is already reported as empty. *)
Theorem validate_csv_file_column_message_unreachable (cell : Type)
    (path_suffix : string -> string)
    (read_csv : UploadedFile -> nat -> result (DataFrame cell)) (file : UploadedFile) :
  ~ In ("File " ++ file_name file ++ " must have at least 1 column.")
       (st_errors (snd (validate_csv_file path_suffix read_csv file))).
Proof.
  unfold validate_csv_file. cbv zeta.
  assert (Hne : forall tail,
             tail <> " must have at least 1 column." ->
             "File " ++ file_name file ++ tail
             <> "File " ++ file_name file ++ " must have at least 1 column.").
  { intros tail Ht H. apply Ht.
    apply (append_cancel_l (file_name file)), (append_cancel_l "File "). exact H. }
  destruct (match size file with Some n => (max_upload_size <? n)%N | None => false end).
  { cbn [snd st_errors flat_map app]. intros [H|[]]. revert H. apply Hne. discriminate. }
  destruct (negb _).
  { cbn [snd st_errors flat_map app]. intros [H|[]]. discriminate H. }
  destruct (String.eqb _ ".csv"); [|intros []].
  destruct (read_csv file 5) as [sample_df|e].
  - destruct (df_empty sample_df) eqn:D.
    + cbn [snd st_errors flat_map app]. intros [H|[]]. revert H. apply Hne. discriminate.
    + rewrite (df_empty_no_columns _ _ D). intros [].
  - cbn [snd st_errors flat_map app]. intros [H|[]]. discriminate H.
Qed.

(** ** Case of the question *)

Lemma lower_idem (s : string) : lower (lower s) = lower s.
Proof.
  induction s as [|c s IH]; [reflexivity|].
  unfold lower in *. cbn [map_chars]. now rewrite lower_char_idem, IH.
Qed.

(** X26.  The intent of an ASCII question does not depend on its case:
    the question, its uppercase form and its lowercase form get the same
    tag. *)
Theorem classify_query_ignores_case (query : string) :
  all_chars is_ascii query = true ->
  classify_query (upper query) = classify_query query /\
  classify_query (lower query) = classify_query query.
Proof.
  intros H. unfold classify_query. cbv zeta.
  now rewrite (lower_upper_ascii query H), lower_idem.
Qed.

Lemma classify_query_ignores_case_witness :
  classify_query (upper "How many patients are there?")
  = classify_query "How many patients are there?" /\
  classify_query (lower "How many patients are there?")
  = classify_query "How many patients are there?".
Proof.
  exact (classify_query_ignores_case "How many patients are there?" eq_refl).
Defined.
